(** * AgroIrriga Pro backend: the coordination engine of [backend/app/main.py]

    A shallow embedding of the message-driven ingest / decide / dispatch /
    notify loop of the FastAPI backend, and the properties of it that the
    specification states.

    Python objects are dynamically typed, so payloads and column values are
    [pyval]s; an operation that raises in Python returns [Raise] here, and the
    handlers thread an explicit [World] (broker outbox, store tables, observer
    list, scheduled tasks, standard output, clock).

    The collaborators are kept simple: the broker accepts every publish and
    a coroutine runs to its end without another task in between.  The store
    follows the column declarations of [models.py] (types, [nullable=False],
    defaults) where the handlers depend on them; what the database engine
    makes of a value of another type is left to the [Session].
    [get_weather_history] and [schedule_irrigation] are not embedded. *)

From Stdlib Require Import ZArith String Floats Uint63 List Bool Lia.
From stdpp Require Import gmap strings list pretty.

Set Warnings "-inexact-float,-register-all".

Local Open Scope Z_scope.

(** ** Python values, exceptions and the operators the handlers use *)

(** JSON-shaped Python values. [PyIsoTime t] is the [str] that
    [datetime.isoformat()] returns for the instant [t]; it occurs in
    outbound payloads only. *)
Inductive pyval : Type :=
  | PyNone
  | PyBool (b : bool)
  | PyInt (z : Z)
  | PyFloat (f : float)
  | PyStr (s : string)
  | PyIsoTime (t : Z)
  | PyList (l : list pyval)
  | PyDict (d : gmap string pyval).

Inductive exn : Type :=
  | TypeError
  | KeyError (key : string)
  | AttributeError
  | JSONDecodeError
  | WebSocketDisconnect
  | RuntimeError
  | IntegrityError
  | DataError
  | HTTPException (status_code : Z) (detail : string).

Inductive result (A : Type) : Type :=
  | Ok (a : A)
  | Raise (e : exn).
Arguments Ok {A} a.
Arguments Raise {A} e.

Definition result_bind {A B} (m : result A) (k : A -> result B) : result B :=
  match m with
  | Ok a => k a
  | Raise e => Raise e
  end.

Notation "x <-? m ;; k" := (result_bind m (fun x => k))
  (at level 100, m at next level, right associativity).

(** An [int] literal of the source seen as a float; exact for the literals
    the source compares with (all below 2^53). *)
Definition float_of_int (n : Z) : float :=
  if 0 <=? n then PrimFloat.of_uint63 (Uint63.of_Z n)
  else PrimFloat.opp (PrimFloat.of_uint63 (Uint63.of_Z (- n))).

(** [v > n] for an int literal [n]: numbers compare, anything else raises. *)
Definition py_gt (v : pyval) (n : Z) : result bool :=
  match v with
  | PyInt z => Ok (n <? z)
  | PyBool b => Ok (n <? Z.b2z b)
  | PyFloat f => Ok (PrimFloat.ltb (float_of_int n) f)
  | _ => Raise TypeError
  end.

(** [v < n] for an int literal [n]. *)
Definition py_lt (v : pyval) (n : Z) : result bool :=
  match v with
  | PyInt z => Ok (z <? n)
  | PyBool b => Ok (Z.b2z b <? n)
  | PyFloat f => Ok (PrimFloat.ltb f (float_of_int n))
  | _ => Raise TypeError
  end.

Definition is_number (v : pyval) : bool :=
  match v with
  | PyInt _ | PyBool _ | PyFloat _ => true
  | _ => false
  end.

(** [data.get(key)] and [data.get(key, default)]: only a dict has [get]. *)
Definition py_get (data : pyval) (key : string) (default : pyval) : result pyval :=
  match data with
  | PyDict d => Ok (match d !! key with Some v => v | None => default end)
  | _ => Raise AttributeError
  end.

(** [v[key]] with a string key. *)
Definition py_getitem (v : pyval) (key : string) : result pyval :=
  match v with
  | PyDict d => match d !! key with Some x => Ok x | None => Raise (KeyError key) end
  | _ => Raise TypeError
  end.

(** [v == s] against a string literal. *)
Definition py_eq_str (v : pyval) (s : string) : bool :=
  match v with
  | PyStr s' => String.eqb s' s
  | _ => false
  end.

Fixpoint chars (s : string) : list pyval :=
  match s with
  | EmptyString => []
  | String c s' => PyStr (String c EmptyString) :: chars s'
  end.

(** The elements a [for] loop visits. *)
Definition py_iter (v : pyval) : result (list pyval) :=
  match v with
  | PyList l => Ok l
  | PyStr s => Ok (chars s)
  | PyDict d => Ok (PyStr <$> (map_to_list d).*1)
  | _ => Raise TypeError
  end.

(** [sub in s] on strings. *)
Definition str_contains (sub s : string) : bool :=
  match String.index 0 sub s with
  | Some _ => true
  | None => false
  end.

(** ** Rows of [models.py] (the columns [main.py] assigns or reads) *)

Module SolenoidState.
Record t : Type := mk {
  valve_number : pyval;
  state : bool;
  timestamp : Z;
  device_id : pyval
}.
End SolenoidState.

Module WeatherReading.
Record t : Type := mk {
  temperature : pyval;
  humidity : pyval;
  pressure : pyval;
  wind_speed : pyval;
  rain_1h : pyval;
  solar_radiation : pyval;
  timestamp : Z;
  device_id : pyval
}.
End WeatherReading.

Module IrrigationEvent.
Record t : Type := mk {
  valve_number : option Z;
  zone_id : Z;               (* Column default 1 *)
  action : string;
  duration_minutes : option Z;
  triggered_by : string;
  confidence : option float;
  timestamp : Z
}.
End IrrigationEvent.

Module FarmZone.
Record t : Type := mk {
  id : Z;
  valves : list Z
}.
End FarmZone.

(** ** Decision engine *)

Module Decision.
Record t : Type := mk {
  should_irrigate : bool;
  confidence : float;
  reason : string;
  valves_to_open : list Z;
  duration_minutes : Z
}.
End Decision.

(** The predictive model, a black box with pure [predict] and
    [predict_proba]; each answers with the entry of the single feature row
    ([...[0]]): a label, and a non-empty row of class probabilities; or it
    raises, and the call is not guarded. *)
Record Predictor : Type := {
  predict : list pyval -> result Z;
  predict_proba : list pyval -> result (float * list float)
}.

(** [ndarray.max()]: the largest entry, a NaN when there is one. *)
Definition np_maximum (a b : float) : float :=
  if PrimFloat.is_nan a then a
  else if PrimFloat.is_nan b then b
  else if PrimFloat.ltb a b then b else a.

Definition np_max (row : float * list float) : float :=
  fold_left np_maximum (snd row) (fst row).

Definition ml_features (weather : option WeatherReading.t) : list pyval :=
  [ match weather with Some w => WeatherReading.temperature w | None => PyInt 25 end;
    match weather with Some w => WeatherReading.humidity w | None => PyInt 60 end;
    match weather with Some w => WeatherReading.rain_1h w | None => PyInt 0 end ].

Definition make_irrigation_decision
    (weather : option WeatherReading.t)
    (last_irrigation : option IrrigationEvent.t)
    (model : option Predictor) : result Decision.t :=
  match model with
  | Some m =>
      let features := ml_features weather in
      prediction <-? predict m features ;;
      row <-? predict_proba m features ;;
      let confidence := np_max row in
      Ok {| Decision.should_irrigate := prediction =? 1;
            Decision.confidence := confidence;
            Decision.reason := "ml_prediction";
            Decision.valves_to_open := [1; 2; 3];
            Decision.duration_minutes := 30 |}
  | None =>
      sr <-? match weather with
             | None => Ok (false, "")
             | Some w =>
                 rained <-? py_gt (WeatherReading.rain_1h w) 5 ;;
                 if rained then Ok (false, "Chuva recente detectada")
                 else
                   humid <-? py_gt (WeatherReading.humidity w) 70 ;;
                   if humid then Ok (false, "Umidade ambiente alta")
                   else
                     hot <-? py_gt (WeatherReading.temperature w) 30 ;;
                     stressed <-? (if hot then py_lt (WeatherReading.humidity w) 40
                                   else Ok false) ;;
                     if stressed then Ok (true, "Condições de estresse hídrico")
                     else Ok (false, "")
             end ;;
      let '(should_irrigate, reason) := sr in
      Ok {| Decision.should_irrigate := should_irrigate;
            Decision.confidence := 0.7%float;
            Decision.reason := reason;
            Decision.valves_to_open := if should_irrigate then [1; 2] else [];
            Decision.duration_minutes := 25 |}
  end.

(** ** The world the handlers act on *)

(** A piece of an f-string given to [print]. *)
Inductive fpart : Type :=
  | Lit (s : string)
  | Val (v : pyval)
  | Exc (e : exn).

(** [published] is what [mqtt_client.publish] was given (the dict before
    [json.dumps]); the three tables hold the committed rows in insertion
    order; [ws_closed] are the sockets on which [send_json] raises and
    [delivered] the frames that reached an observer; [tasks] are the
    broadcasts handed to [asyncio.create_task]. *)
Record World : Type := mkWorld {
  clock : Z;
  ml_model : option Predictor;
  published : list (string * pyval);
  solenoid_states : list SolenoidState.t;
  weather_readings : list WeatherReading.t;
  irrigation_events : list IrrigationEvent.t;
  farm_zones : list FarmZone.t;
  connected_clients : list nat;
  ws_closed : gset nat;
  delivered : list (nat * pyval);
  tasks : list pyval;
  stdout : list (list fpart)
}.

(** State and exceptions: an exception keeps the world reached so far. *)
Definition io (A : Type) : Type := World -> result A * World.

Definition io_ret {A} (a : A) : io A := fun w => (Ok a, w).

Definition io_raise {A} (e : exn) : io A := fun w => (Raise e, w).

Definition io_bind {A B} (m : io A) (k : A -> io B) : io B :=
  fun w =>
    match m w with
    | (Ok a, w') => k a w'
    | (Raise e, w') => (Raise e, w')
    end.

Notation "x <- m ;; k" := (io_bind m (fun x => k))
  (at level 100, m at next level, right associativity).

Notation "'run' m ;; k" := (io_bind m (fun _ => k))
  (at level 100, m at next level, right associativity).

Definition lift {A} (r : result A) : io A := fun w => (r, w).

(** [try: body  except Exception as e: handler(e)] *)
Definition try_except {A} (body : io A) (handler : exn -> io A) : io A :=
  fun w =>
    match body w with
    | (Ok a, w') => (Ok a, w')
    | (Raise e, w') => handler e w'
    end.

Fixpoint io_mapM {A B} (f : A -> io B) (l : list A) : io (list B) :=
  match l with
  | [] => io_ret []
  | x :: l' => y <- f x ;; ys <- io_mapM f l' ;; io_ret (y :: ys)
  end.

Fixpoint io_iter {A} (f : A -> io unit) (l : list A) : io unit :=
  match l with
  | [] => io_ret tt
  | x :: l' => run f x ;; io_iter f l'
  end.

Fixpoint io_fold {A S} (f : S -> A -> io S) (l : list A) (s : S) : io S :=
  match l with
  | [] => io_ret s
  | x :: l' => s' <- f s x ;; io_fold f l' s'
  end.

Fixpoint io_repeat (n : nat) (body : io unit) : io unit :=
  match n with
  | O => io_ret tt
  | S n' => run body ;; io_repeat n' body
  end.

Definition utcnow : io Z := fun w => (Ok (clock w), w).

Definition sleep (seconds : Z) : io unit := fun w =>
  (Ok tt,
   mkWorld (clock w + seconds) (ml_model w) (published w) (solenoid_states w)
     (weather_readings w) (irrigation_events w) (farm_zones w)
     (connected_clients w) (ws_closed w) (delivered w) (tasks w) (stdout w)).

Definition print (line : list fpart) : io unit := fun w =>
  (Ok tt,
   mkWorld (clock w) (ml_model w) (published w) (solenoid_states w)
     (weather_readings w) (irrigation_events w) (farm_zones w)
     (connected_clients w) (ws_closed w) (delivered w) (tasks w)
     (stdout w ++ [line])).

Definition publish (topic : string) (payload : pyval) : io unit := fun w =>
  (Ok tt,
   mkWorld (clock w) (ml_model w) (published w ++ [(topic, payload)])
     (solenoid_states w) (weather_readings w) (irrigation_events w)
     (farm_zones w) (connected_clients w) (ws_closed w) (delivered w)
     (tasks w) (stdout w)).

(** The session [db] of a handler.  [models.py] fixes what a column does
    with a null and with a value of its own type; what the database engine
    makes of a value of another type (it may convert it or refuse it) is the
    session's. *)
Record Session : Type := {
  engine_float : pyval -> result pyval;
  engine_integer : pyval -> result pyval
}.

(** A [Float] column: a null stays null, a float is kept, an int that a
    float holds exactly comes back as that float. *)
Definition float_column (db : Session) (v : pyval) : result pyval :=
  match v with
  | PyNone => Ok PyNone
  | PyFloat f => Ok (PyFloat f)
  | PyInt z =>
      if Z.abs z <=? 2 ^ 53 then Ok (PyFloat (float_of_int z))
      else engine_float db v
  | _ => engine_float db v
  end.

(** [valve_number = Column(Integer, nullable=False)]: a null is refused, an
    int is kept. *)
Definition integer_not_null_column (db : Session) (v : pyval) : result pyval :=
  match v with
  | PyNone => Raise IntegrityError
  | PyInt z => Ok (PyInt z)
  | _ => engine_integer db v
  end.

(** [device_id = Column(String(50), default="agroirriga_fazenda_01")]: a
    null takes the default. *)
Definition device_id_column (v : pyval) : pyval :=
  match v with
  | PyNone => PyStr "agroirriga_fazenda_01"
  | _ => v
  end.

Fixpoint result_mapM {A B} (f : A -> result B) (l : list A) : result (list B) :=
  match l with
  | [] => Ok []
  | x :: l' => y <-? f x ;; ys <-? result_mapM f l' ;; Ok (y :: ys)
  end.

(** The row of [solenoid_states] that a [SolenoidState] object becomes. *)
Definition stored_solenoid_state (db : Session) (row : SolenoidState.t)
    : result SolenoidState.t :=
  number <-? integer_not_null_column db (SolenoidState.valve_number row) ;;
  Ok (SolenoidState.mk number (SolenoidState.state row)
        (SolenoidState.timestamp row)
        (device_id_column (SolenoidState.device_id row))).

(** The row of [weather_readings] that a [WeatherReading] object becomes. *)
Definition stored_weather_reading (db : Session) (row : WeatherReading.t)
    : result WeatherReading.t :=
  temperature <-? float_column db (WeatherReading.temperature row) ;;
  humidity <-? float_column db (WeatherReading.humidity row) ;;
  pressure <-? float_column db (WeatherReading.pressure row) ;;
  wind_speed <-? float_column db (WeatherReading.wind_speed row) ;;
  rain_1h <-? float_column db (WeatherReading.rain_1h row) ;;
  solar_radiation <-? float_column db (WeatherReading.solar_radiation row) ;;
  Ok (WeatherReading.mk temperature humidity pressure wind_speed rain_1h
        solar_radiation (WeatherReading.timestamp row)
        (WeatherReading.device_id row)).

(** [db.add(row)] for each row, then [db.commit()]: every row is stored, or
    the commit raises and none is. *)
Definition commit_solenoid_states (db : Session) (rows : list SolenoidState.t)
    : io unit := fun w =>
  match result_mapM (stored_solenoid_state db) rows with
  | Ok stored =>
      (Ok tt,
       mkWorld (clock w) (ml_model w) (published w) (solenoid_states w ++ stored)
         (weather_readings w) (irrigation_events w) (farm_zones w)
         (connected_clients w) (ws_closed w) (delivered w) (tasks w) (stdout w))
  | Raise e => (Raise e, w)
  end.

Definition commit_weather_reading (db : Session) (row : WeatherReading.t)
    : io unit := fun w =>
  match stored_weather_reading db row with
  | Ok stored =>
      (Ok tt,
       mkWorld (clock w) (ml_model w) (published w) (solenoid_states w)
         (weather_readings w ++ [stored]) (irrigation_events w) (farm_zones w)
         (connected_clients w) (ws_closed w) (delivered w) (tasks w) (stdout w))
  | Raise e => (Raise e, w)
  end.

Definition commit_irrigation_event (row : IrrigationEvent.t) : io unit := fun w =>
  (Ok tt,
   mkWorld (clock w) (ml_model w) (published w) (solenoid_states w)
     (weather_readings w) (irrigation_events w ++ [row]) (farm_zones w)
     (connected_clients w) (ws_closed w) (delivered w) (tasks w) (stdout w)).

Definition set_connected_clients (clients : list nat) : io unit := fun w =>
  (Ok tt,
   mkWorld (clock w) (ml_model w) (published w) (solenoid_states w)
     (weather_readings w) (irrigation_events w) (farm_zones w)
     clients (ws_closed w) (delivered w) (tasks w) (stdout w)).

(** [asyncio.create_task(notify_clients(message))]: in a thread with a
    running event loop the broadcast is queued; in any other thread the call
    raises [RuntimeError] and nothing is queued. *)
Definition create_task (running_loop : bool) (message : pyval) : io unit := fun w =>
  if running_loop then
    (Ok tt,
     mkWorld (clock w) (ml_model w) (published w) (solenoid_states w)
       (weather_readings w) (irrigation_events w) (farm_zones w)
       (connected_clients w) (ws_closed w) (delivered w)
       (tasks w ++ [message]) (stdout w))
  else (Raise RuntimeError, w).

(** [await client.send_json(message)]: raises on a closed socket. *)
Definition send_json (client : nat) (message : pyval) : io unit := fun w =>
  if bool_decide (client ∈ ws_closed w) then (Raise WebSocketDisconnect, w)
  else
    (Ok tt,
     mkWorld (clock w) (ml_model w) (published w) (solenoid_states w)
       (weather_readings w) (irrigation_events w) (farm_zones w)
       (connected_clients w) (ws_closed w) (delivered w ++ [(client, message)])
       (tasks w) (stdout w)).

(** [query.order_by(timestamp.desc()).first()]; among equal timestamps the
    row inserted first is kept. *)
Definition latest {A} (timestamp : A -> Z) (rows : list A) : option A :=
  fold_left
    (fun best row =>
       match best with
       | None => Some row
       | Some b => if timestamp b <? timestamp row then Some row else Some b
       end)
    rows None.

(** ** Telemetry ingestion (MQTT handlers) *)

(** An inbound message; [payload_json] is what
    [json.loads(msg.payload.decode())] returns, [None] when it raises. *)
Record MQTTMessage : Type := {
  topic : string;
  payload_json : option pyval
}.

Definition save_valve_status (db : Session) (data : pyval) : io unit :=
  valves <- lift (py_get data "valves" (PyList [])) ;;
  items <- lift (py_iter valves) ;;
  rows <- io_mapM
            (fun valve_data =>
               number <- lift (py_getitem valve_data "number") ;;
               st <- lift (py_getitem valve_data "state") ;;
               now <- utcnow ;;
               device_id <- lift (py_get data "device_id" (PyStr "unknown")) ;;
               io_ret (SolenoidState.mk number (py_eq_str st "ON") now device_id))
            items ;;
  commit_solenoid_states db rows.

Definition save_weather_data (db : Session) (data : pyval) : io unit :=
  temperature <- lift (py_get data "temperature" PyNone) ;;
  humidity <- lift (py_get data "humidity" PyNone) ;;
  pressure <- lift (py_get data "pressure" PyNone) ;;
  wind_speed <- lift (py_get data "wind_speed" PyNone) ;;
  rain_1h <- lift (py_get data "rain_1h" PyNone) ;;
  solar_radiation <- lift (py_get data "solar_radiation" PyNone) ;;
  now <- utcnow ;;
  device_id <- lift (py_get data "device_id" (PyStr "unknown")) ;;
  commit_weather_reading db
    (WeatherReading.mk temperature humidity pressure wind_speed rain_1h
       solar_radiation now device_id).

Definition handle_alert (data : pyval) : io unit :=
  alert_type <- lift (py_get data "alert_type" PyNone) ;;
  valve <- lift (py_get data "valve" PyNone) ;;
  print [Lit "🚨 ALERTA: "; Val alert_type; Lit " - Válvula "; Val valve].

(** The [if]/[elif] chain of [on_mqtt_message] that stores the payload. *)
Definition route_by_topic (db : Session) (topic : string) (payload : pyval)
    : io unit :=
  if str_contains "status" topic then save_valve_status db payload
  else if str_contains "weather" topic then save_weather_data db payload
  else if str_contains "alerts" topic then handle_alert payload
  else io_ret tt.

Definition mqtt_update (topic : string) (payload : pyval) : pyval :=
  PyDict {[ "type" := PyStr "mqtt_update"; "topic" := PyStr topic; "data" := payload ]}.

(** The handler, with what its body takes from where it runs: whether the
    calling thread has a running event loop, and the session that
    [SessionLocal()] opens.  The program registers the handler with the MQTT
    client and starts the client's own network thread ([loop_start]), which
    has no running loop. *)
Definition on_mqtt_message (running_loop : bool) (db : Session) (msg : MQTTMessage)
    : io unit :=
  try_except
    (payload <- lift (match payload_json msg with
                      | Some p => Ok p
                      | None => Raise JSONDecodeError
                      end) ;;
     run print [Lit "📨 MQTT: "; Val (PyStr (topic msg))] ;;
     run route_by_topic db (topic msg) payload ;;
     create_task running_loop (mqtt_update (topic msg) payload))
    (fun e => print [Lit "❌ Erro MQTT: "; Exc e]).

(** ** Command dispatch (API endpoints) *)

(** Modelled from the spec: the request body [ValveCommand] of
    [schemas.py], which is not among the sources; the spec gives a manual
    command a [turn_on] flag and an optional [duration_minutes]. *)
Module ValveCommand.
Record t : Type := mk {
  state : bool;
  duration_minutes : option Z
}.
End ValveCommand.

Definition command_topic : string := "agroirriga/agroirriga_fazenda_01/command".

Definition py_opt_int (o : option Z) : pyval :=
  match o with
  | Some n => PyInt n
  | None => PyNone
  end.

Definition control_valve (valve_number : Z) (command : ValveCommand.t) : io pyval :=
  if (valve_number <? 1) || (10 <? valve_number) then
    io_raise (HTTPException 400 "Válvula deve ser 1-10")
  else
    now <- utcnow ;;
    run publish command_topic
          (PyDict {[ "action" := PyStr (if ValveCommand.state command
                                        then "valve_on" else "valve_off");
                     "valve" := PyInt valve_number;
                     "duration" := (if ValveCommand.state command
                                    then py_opt_int (ValveCommand.duration_minutes command)
                                    else PyInt 0);
                     "timestamp" := PyIsoTime now;
                     "source" := PyStr "web_api" ]}) ;;
    now' <- utcnow ;;
    run commit_irrigation_event
          {| IrrigationEvent.valve_number := Some valve_number;
             IrrigationEvent.zone_id := 1;
             IrrigationEvent.action :=
               if ValveCommand.state command then "ON" else "OFF";
             IrrigationEvent.duration_minutes :=
               if ValveCommand.state command
               then ValveCommand.duration_minutes command else None;
             IrrigationEvent.triggered_by := "manual";
             IrrigationEvent.confidence := None;
             IrrigationEvent.timestamp := now' |} ;;
    io_ret
      (PyDict {[ "success" := PyBool true;
                 "valve" := PyInt valve_number;
                 "state" := PyStr (if ValveCommand.state command then "ON" else "OFF");
                 "message" := PyStr ("Válvula " +:+ pretty valve_number +:+ " " +:+
                                     (if ValveCommand.state command
                                      then "ligada" else "desligada")) ]}).

Definition all_valves_off : io pyval :=
  now <- utcnow ;;
  run publish command_topic
        (PyDict {[ "action" := PyStr "valve_all_off";
                   "timestamp" := PyIsoTime now ]}) ;;
  io_ret
    (PyDict {[ "success" := PyBool true;
               "message" := PyStr "Comando enviado: desligar todas" ]}).

Definition valve_on_payload (valve duration : Z) : pyval :=
  PyDict {[ "action" := PyStr "valve_on";
            "valve" := PyInt valve;
            "duration" := PyInt duration;
            "reason" := PyStr "ml_recommendation" ]}.

(** The two queries of [smart_irrigation] and the decision taken on them. *)
Definition latest_weather (w : World) : option WeatherReading.t :=
  latest WeatherReading.timestamp (weather_readings w).

Definition last_irrigation (zone_id : Z) (w : World) : option IrrigationEvent.t :=
  latest IrrigationEvent.timestamp
    (filter (fun e => IrrigationEvent.zone_id e = zone_id) (irrigation_events w)).

Definition zone_decision (zone_id : Z) (w : World) : result Decision.t :=
  make_irrigation_decision (latest_weather w) (last_irrigation zone_id w) (ml_model w).

Definition smart_irrigation (zone_id : Z) : io pyval := fun w =>
  (decision <- lift (zone_decision zone_id w) ;;
   run (if Decision.should_irrigate decision then
          run io_iter
                (fun valve =>
                   publish command_topic
                     (valve_on_payload valve (Decision.duration_minutes decision)))
                (Decision.valves_to_open decision) ;;
          now <- utcnow ;;
          commit_irrigation_event
            {| IrrigationEvent.valve_number := None;
               IrrigationEvent.zone_id := zone_id;
               IrrigationEvent.action := "SMART_ON";
               IrrigationEvent.duration_minutes :=
                 Some (Decision.duration_minutes decision);
               IrrigationEvent.triggered_by := "ml_model";
               IrrigationEvent.confidence := Some (Decision.confidence decision);
               IrrigationEvent.timestamp := now |}
        else io_ret tt) ;;
   io_ret
     (PyDict {[ "decision" := PyBool (Decision.should_irrigate decision);
                "confidence" := PyFloat (Decision.confidence decision);
                "reason" := PyStr (Decision.reason decision);
                "valves" := PyList (PyInt <$> Decision.valves_to_open decision);
                "duration" := PyInt (Decision.duration_minutes decision) ]})) w.

(** ** Live notification (WebSocket observers) *)

(** [list.remove(x)]: drops the first occurrence. *)
Fixpoint list_remove (x : nat) (l : list nat) : list nat :=
  match l with
  | [] => []
  | y :: l' => if bool_decide (y = x) then l' else y :: list_remove x l'
  end.

Definition notify_clients (message : pyval) : io unit := fun w =>
  (disconnected <-
     io_fold
       (fun disconnected client =>
          try_except
            (run send_json client message ;; io_ret disconnected)
            (fun _ => io_ret (disconnected ++ [client])))
       (connected_clients w) [] ;;
   io_iter
     (fun client w' =>
        if bool_decide (client ∈ connected_clients w')
        then set_connected_clients (list_remove client (connected_clients w')) w'
        else io_ret tt w')
     disconnected) w.

(** ** Periodic tasks

    Each [while True] loop is run for a given number of rounds. *)

Definition weather_scheduler (rounds : nat) : io unit :=
  io_repeat rounds
    (run sleep 7200 ;;
     now <- utcnow ;;
     publish command_topic
       (PyDict {[ "action" := PyStr "read_weather_now";
                  "timestamp" := PyIsoTime now ]})).

Definition advisor_line : list fpart :=
  [Lit "🤖 ML Advisor: Analisando condições para irrigação..."].

Definition ml_irrigation_advisor (rounds : nat) : io unit :=
  io_repeat rounds
    (run sleep 21600 ;;
     print advisor_line).

(** ** Read endpoints and observer registration *)

(** [SolenoidState.valve_number == i] in a query filter: the rows whose
    valve number is the int [i]. *)
Definition valve_is (i : Z) (row : SolenoidState.t) : bool :=
  match SolenoidState.valve_number row with
  | PyInt z => z =? i
  | _ => false
  end.

(** The body of the loop of [get_valves_status]: the entry for valve [i]. *)
Definition valve_report (i : Z) (w : World) : pyval :=
  let state :=
    latest SolenoidState.timestamp
      (filter (fun row => valve_is i row = true) (solenoid_states w)) in
  PyDict {[ "valve" := PyInt i;
            "state" := PyBool (match state with
                               | Some s => SolenoidState.state s
                               | None => false
                               end);
            "last_change" := (match state with
                              | Some s => PyIsoTime (SolenoidState.timestamp s)
                              | None => PyNone
                              end) ]}.

Definition get_valves_status : io pyval := fun w =>
  io_ret
    (PyDict {[ "valves" := PyList (map (fun i => valve_report i w) (seqZ 1 10)) ]}) w.

Definition weather_response (weather : WeatherReading.t) : pyval :=
  PyDict {[ "temperature" := WeatherReading.temperature weather;
            "humidity" := WeatherReading.humidity weather;
            "pressure" := WeatherReading.pressure weather;
            "wind_speed" := WeatherReading.wind_speed weather;
            "rain_1h" := WeatherReading.rain_1h weather;
            "solar_radiation" := WeatherReading.solar_radiation weather;
            "timestamp" := PyIsoTime (WeatherReading.timestamp weather) ]}.

Definition get_current_weather : io pyval := fun w =>
  match latest_weather w with
  | None => io_raise (HTTPException 404 "Sem dados meteorológicos") w
  | Some weather => io_ret (weather_response weather) w
  end.

(** [websocket_endpoint] up to its receive loop: the socket is accepted and
    appended to the observers. *)
Definition websocket_accept (websocket : nat) : io unit := fun w =>
  set_connected_clients (connected_clients w ++ [websocket]) w.

(** The [except WebSocketDisconnect] branch of [websocket_endpoint]:
    [connected_clients.remove(websocket)]; [None] when [list.remove] raises
    [ValueError] because the socket is not in the list. *)
Definition websocket_disconnect (websocket : nat) (w : World) : option World :=
  if bool_decide (websocket ∈ connected_clients w)
  then Some (snd (set_connected_clients
                    (list_remove websocket (connected_clients w)) w))
  else None.

(** ** Concrete inputs *)

Definition reading (temperature humidity rain_1h : pyval) : WeatherReading.t :=
  WeatherReading.mk temperature humidity PyNone PyNone rain_1h PyNone 0 (PyStr "d1").

Definition rainy_reading : WeatherReading.t :=
  reading (PyFloat 32) (PyFloat 35) (PyFloat 6).

Definition dry_hot_reading : WeatherReading.t :=
  reading (PyFloat 32) (PyFloat 35) (PyFloat 0).

(** A reading stored from a payload that carried no [rain_1h]. *)
Definition reading_without_rain : WeatherReading.t :=
  reading (PyFloat 32) (PyFloat 35) PyNone.

(** A reading stored from a payload that carried no [humidity]. *)
Definition reading_without_humidity : WeatherReading.t :=
  reading (PyFloat 32) PyNone (PyFloat 0).

(** An engine that refuses every value that is not of the column's type. *)
Definition strict_session : Session :=
  {| engine_float := fun _ => Raise DataError;
     engine_integer := fun _ => Raise DataError |}.

Definition empty_world : World :=
  mkWorld 1000 None [] [] [] [] [] [] ∅ [] [] [].

(** A classifier that always answers label 1 with probabilities 0.1 / 0.9. *)
Definition always_irrigate : Predictor :=
  {| predict := fun _ => Ok 1;
     predict_proba := fun _ => Ok (0.1%float, [0.9%float]) |}.

(** Zone 2 owns valves 7 and 8; the model is loaded. *)
Definition zone2_world : World :=
  mkWorld 1000 (Some always_irrigate) [] [] [] [] [FarmZone.mk 2 [7; 8]] [] ∅ [] [] [].

(** Zone 1 is configured and the latest reading is hot and dry; no model. *)
Definition dry_world : World :=
  mkWorld 1000 None [] [] [dry_hot_reading] [] [FarmZone.mk 1 [1; 2]] [] ∅ [] [] [].

Definition out_of_range_fields : gmap string pyval :=
  {[ "humidity" := PyFloat 150; "rain_1h" := PyFloat (-3) ]}.

Definition out_of_range_payload : pyval := PyDict out_of_range_fields.




(** Three observers, the second one gone. *)
Definition three_observers : World :=
  mkWorld 1000 None [] [] [] [] [] [1; 2; 3]%nat {[ 2%nat ]} [] [] [].

(** ** Predicates used in the statements *)

(** The readings on which every heuristic comparison is defined. *)
Definition weather_is_numeric (weather : option WeatherReading.t) : bool :=
  match weather with
  | None => true
  | Some w =>
      is_number (WeatherReading.rain_1h w) &&
      is_number (WeatherReading.humidity w) &&
      is_number (WeatherReading.temperature w)
  end.

(** [keeps proj m]: running [m] never changes the [proj] part of the world,
    whether it returns or raises. *)
Definition keeps {B A} (proj : World -> B) (m : io A) : Prop :=
  forall w, proj (snd (m w)) = proj w.

(** The event [smart_irrigation] stores when it dispatches. *)
Definition smart_event (zone_id : Z) (d : Decision.t) (now : Z) : IrrigationEvent.t :=
  {| IrrigationEvent.valve_number := None;
     IrrigationEvent.zone_id := zone_id;
     IrrigationEvent.action := "SMART_ON";
     IrrigationEvent.duration_minutes := Some (Decision.duration_minutes d);
     IrrigationEvent.triggered_by := "ml_model";
     IrrigationEvent.confidence := Some (Decision.confidence d);
     IrrigationEvent.timestamp := now |}.

(** The second loop of [notify_clients] on the observer list alone. *)
Fixpoint remove_all (disconnected clients : list nat) : list nat :=
  match disconnected with
  | [] => clients
  | client :: rest =>
      remove_all rest
        (if bool_decide (client ∈ clients) then list_remove client clients
         else clients)
  end.

(** The values whose handling by a [Float] column [models.py] fixes: a
    null, a float, an int of magnitude at most 2^53. *)
Definition float_storable (v : pyval) : bool :=
  match v with
  | PyNone | PyFloat _ => true
  | PyInt z => Z.abs z <=? 2 ^ 53
  | _ => false
  end.

(** What such a value is once stored. *)
Definition stored_float (v : pyval) : pyval :=
  match v with
  | PyInt z => PyFloat (float_of_int z)
  | _ => v
  end.

(** A payload all of whose weather fields are missing or such values. *)
Definition weather_storable (d : gmap string pyval) : bool :=
  forallb (fun key => float_storable (default PyNone (d !! key)))
    ["temperature"; "humidity"; "pressure"; "wind_speed"; "rain_1h";
     "solar_radiation"].

(** A device id that a [String(50)] column takes: missing, null, or a text
    of at most 50 bytes. *)
Definition device_storable (device_id : option pyval) : bool :=
  match device_id with
  | None | Some PyNone => true
  | Some (PyStr s) => (String.length s <=? 50)%nat
  | Some _ => false
  end.

(** A valve entry whose number is a 32-bit int and that has a state. *)
Definition entry_storable (valve_data : pyval) : bool :=
  match py_getitem valve_data "number", py_getitem valve_data "state" with
  | Ok (PyInt z), Ok _ => (- 2 ^ 31 <=? z) && (z <? 2 ^ 31)
  | _, _ => false
  end.

(** A valve entry of a status payload that has both keys the handler reads. *)
Definition entry_ok (valve_data : pyval) : bool :=
  match py_getitem valve_data "number", py_getitem valve_data "state" with
  | Ok _, Ok _ => true
  | _, _ => false
  end.

(** The row [save_valve_status] builds for such an entry. *)
Definition status_row (device_id : pyval) (now : Z) (valve_data : pyval)
    : SolenoidState.t :=
  SolenoidState.mk
    (match py_getitem valve_data "number" with Ok v => v | Raise _ => PyNone end)
    (match py_getitem valve_data "state" with
     | Ok v => py_eq_str v "ON"
     | Raise _ => false
     end)
    now device_id.


(** A weather topic whose device id contains "status". *)
Definition weather_from_status_device : MQTTMessage :=
  {| topic := "agroirriga/status_01/weather";
     payload_json := Some out_of_range_payload |}.

Definition unparseable_message : MQTTMessage :=
  {| topic := "agroirriga/d1/status"; payload_json := None |}.

(** The latest reading has 6 mm of rain and no other usable column. *)
Definition rainy_world : World :=
  mkWorld 1000 None [] [] [reading PyNone (PyStr "n/a") (PyFloat 6)] []
    [FarmZone.mk 1 [1; 2]] [] ∅ [] [] [].

Definition payload_without_rain : gmap string pyval :=
  {[ "temperature" := PyFloat 32; "humidity" := PyFloat 35 ]}.

(** One step of the scan [latest] makes over a table. *)
Definition latest_step {A} (timestamp : A -> Z) (best : option A) (row : A)
    : option A :=
  match best with
  | None => Some row
  | Some b => if timestamp b <? timestamp row then Some row else Some b
  end.

(** A batch whose first entry is complete and whose second lacks "number". *)
Definition half_good_batch : pyval :=
  PyDict {[ "valves" :=
              PyList [PyDict {[ "number" := PyInt 1; "state" := PyStr "ON" ]};
                      PyDict {[ "state" := PyStr "ON" ]}] ]}.

(** An alert about valve 4. *)
Definition alert_fields : gmap string pyval :=
  {[ "alert_type" := PyStr "overcurrent"; "valve" := PyInt 4 ]}.

Definition alert_message : MQTTMessage :=
  {| topic := "agroirriga/d1/alerts";
     payload_json := Some (PyDict alert_fields) |}.

(** A report that valve 3 is on. *)
Definition valve3_on : pyval :=
  PyDict {[ "number" := PyInt 3; "state" := PyStr "ON" ]}.

Definition status_fields : gmap string pyval :=
  {[ "device_id" := PyStr "d1"; "valves" := PyList [valve3_on] ]}.

Definition status_message : MQTTMessage :=
  {| topic := "agroirriga/d1/status";
     payload_json := Some (PyDict status_fields) |}.

(** A payload whose humidity is the JSON int 150. *)
Definition int_humidity_fields : gmap string pyval :=
  {[ "humidity" := PyInt 150; "rain_1h" := PyFloat (-3) ]}.

(** A batch whose second entry has a null number. *)
Definition null_number_fields : gmap string pyval :=
  {[ "valves" :=
       PyList [valve3_on; PyDict {[ "number" := PyNone; "state" := PyStr "OFF" ]}] ]}.

(** * Properties *)

(** ** Decision engine *)

Section DecisionEngine.

Variable last : option IrrigationEvent.t.

Lemma py_gt_float (f : float) (n : Z) :
  py_gt (PyFloat f) n = Ok (PrimFloat.ltb (float_of_int n) f).
Proof. reflexivity. Qed.

Lemma py_lt_float (f : float) (n : Z) :
  py_lt (PyFloat f) n = Ok (PrimFloat.ltb f (float_of_int n)).
Proof. reflexivity. Qed.

Lemma py_gt_number (v : pyval) (n : Z) :
  is_number v = true -> exists b, py_gt v n = Ok b.
Proof. destruct v; simpl; intros H; try discriminate H; eauto. Qed.

Lemma py_lt_number (v : pyval) (n : Z) :
  is_number v = true -> exists b, py_lt v n = Ok b.
Proof. destruct v; simpl; intros H; try discriminate H; eauto. Qed.

(** A comparison that answered was made on a number. *)
Lemma py_gt_Ok_number (v : pyval) (n : Z) (b : bool) :
  py_gt v n = Ok b -> is_number v = true.
Proof. destruct v; simpl; intros H; try discriminate H; reflexivity. Qed.

(** The ML branch when the model answers, for every model and weather. *)
Lemma ml_branch (m : Predictor) (weather : option WeatherReading.t)
    (label : Z) (row : float * list float) :
  predict m (ml_features weather) = Ok label ->
  predict_proba m (ml_features weather) = Ok row ->
  make_irrigation_decision weather last (Some m) =
  Ok {| Decision.should_irrigate := label =? 1;
        Decision.confidence := np_max row;
        Decision.reason := "ml_prediction";
        Decision.valves_to_open := [1; 2; 3];
        Decision.duration_minutes := 30 |}.
Proof.
  intros Hl Hr. unfold make_irrigation_decision. cbv zeta.
  rewrite Hl. simpl. rewrite Hr. reflexivity.
Qed.

(** The ML branch when the model raises: the exception is not caught. *)
Lemma ml_branch_raises (m : Predictor) (weather : option WeatherReading.t) (e : exn) :
  predict m (ml_features weather) = Raise e \/
  (exists label,
     predict m (ml_features weather) = Ok label /\
     predict_proba m (ml_features weather) = Raise e) ->
  make_irrigation_decision weather last (Some m) = Raise e.
Proof.
  unfold make_irrigation_decision. cbv zeta.
  intros [H | (label & Hl & Hr)].
  - rewrite H. reflexivity.
  - rewrite Hl. simpl. rewrite Hr. reflexivity.
Qed.

Lemma ml_features_absent :
  ml_features None = [PyInt 25; PyInt 60; PyInt 0].
Proof. reflexivity. Qed.

(** The heuristic branch never looks at the last irrigation event. *)
Lemma last_irrigation_unused
    (weather : option WeatherReading.t) (model : option Predictor)
    (other : option IrrigationEvent.t) :
  make_irrigation_decision weather last model =
  make_irrigation_decision weather other model.
Proof. reflexivity. Qed.

(** Whatever the heuristic branch returns has the fixed confidence and
    duration, and opens valves 1 and 2 exactly when it irrigates. *)
Lemma heuristic_shape (weather : option WeatherReading.t) (d : Decision.t) :
  make_irrigation_decision weather last None = Ok d ->
  Decision.confidence d = 0.7%float /\
  Decision.duration_minutes d = 25 /\
  Decision.valves_to_open d = (if Decision.should_irrigate d then [1; 2] else []).
Proof.
  unfold make_irrigation_decision.
  destruct weather as [w|]; simpl.
  - destruct (py_gt (WeatherReading.rain_1h w) 5) as [[|]|]; simpl;
      [ | destruct (py_gt (WeatherReading.humidity w) 70) as [[|]|]; simpl;
          [ | destruct (py_gt (WeatherReading.temperature w) 30) as [[|]|]; simpl;
              [ destruct (py_lt (WeatherReading.humidity w) 40) as [[|]|]; simpl | | ]
            | ]
        | ];
      intros H; inversion H; subst; simpl; auto.
  - intros H; inversion H; subst; simpl; auto.
Qed.

(** On a reading whose three compared fields are numbers it does return. *)
Lemma heuristic_returns (w : WeatherReading.t) :
  is_number (WeatherReading.rain_1h w) = true ->
  is_number (WeatherReading.humidity w) = true ->
  is_number (WeatherReading.temperature w) = true ->
  exists d, make_irrigation_decision (Some w) last None = Ok d.
Proof.
  intros Hr Hh Ht.
  destruct (py_gt_number _ 5 Hr) as [b1 E1].
  destruct (py_gt_number _ 70 Hh) as [b2 E2].
  destruct (py_gt_number _ 30 Ht) as [b3 E3].
  destruct (py_lt_number _ 40 Hh) as [b4 E4].
  unfold make_irrigation_decision; simpl.
  rewrite E1; simpl. destruct b1; [eauto|].
  rewrite E2; simpl. destruct b2; [eauto|].
  rewrite E3; simpl. destruct b3; simpl; [|eauto].
  rewrite E4; simpl. destruct b4; eauto.
Qed.

End DecisionEngine.

(** C1 (as the code has it): with no model the rules are tried in the order
    rain, humidity, heat-and-dryness, and the first that matches decides:
    [rain_1h > 5] gives no irrigation with reason "Chuva recente detectada";
    else [humidity > 70] gives no irrigation with reason "Umidade ambiente
    alta"; else [temperature > 30 and humidity < 40] gives irrigation with
    reason "Condições de estresse hídrico", confidence 0.7, 25 minutes and
    valves 1 and 2; else no irrigation and an empty reason.  A rule is tried
    only when the comparisons before it answered; an absent weather gives no
    irrigation and an empty reason. *)
Theorem C1_heuristic_precedence
    (w : WeatherReading.t) (last : option IrrigationEvent.t) :
  let decide := make_irrigation_decision (Some w) last None in
  let rained := py_gt (WeatherReading.rain_1h w) 5 in
  let humid := py_gt (WeatherReading.humidity w) 70 in
  let hot := py_gt (WeatherReading.temperature w) 30 in
  let dry := py_lt (WeatherReading.humidity w) 40 in
  (rained = Ok true ->
   decide = Ok (Decision.mk false 0.7%float "Chuva recente detectada" [] 25)) /\
  (rained = Ok false -> humid = Ok true ->
   decide = Ok (Decision.mk false 0.7%float "Umidade ambiente alta" [] 25)) /\
  (rained = Ok false -> humid = Ok false -> hot = Ok true -> dry = Ok true ->
   decide = Ok (Decision.mk true 0.7%float "Condições de estresse hídrico" [1; 2] 25)) /\
  (rained = Ok false -> humid = Ok false ->
   hot = Ok false \/ (hot = Ok true /\ dry = Ok false) ->
   decide = Ok (Decision.mk false 0.7%float "" [] 25)) /\
  make_irrigation_decision None last None = Ok (Decision.mk false 0.7%float "" [] 25).
Proof.
  cbv zeta. unfold make_irrigation_decision. simpl.
  repeat split.
  - intros ->. reflexivity.
  - intros -> ->. reflexivity.
  - intros -> -> -> ->. reflexivity.
  - intros -> -> [-> | [-> ->]]; reflexivity.
Qed.

(** C1, the claim as stated fails: on a reading with 6 mm of rain the reason
    returned is the Portuguese text, not "recent rainfall detected"; and a
    stored reading whose [rain_1h] is null makes the call raise instead of
    falling through to a later rule. *)
Lemma C1_reason_text_and_null_field :
  (exists d,
     make_irrigation_decision (Some rainy_reading) None None = Ok d /\
     Decision.should_irrigate d = false /\
     Decision.reason d = "Chuva recente detectada" /\
     Decision.reason d <> "recent rainfall detected") /\
  make_irrigation_decision (Some reading_without_rain) None None = Raise TypeError.
Proof.
  split; [|reflexivity].
  eexists. split; [reflexivity|].
  simpl. repeat split. discriminate.
Qed.

(** The spec's end-to-end reading (32 degrees, 35 %, no rain). *)
Example heuristic_dry_hot :
  make_irrigation_decision (Some dry_hot_reading) None None =
  Ok (Decision.mk true 0.7%float "Condições de estresse hídrico" [1; 2] 25).
Proof. reflexivity. Qed.

(** With no model, for an absent weather and for every reading whose rain,
    humidity and temperature are numbers, the call returns a Decision with
    confidence 0.7 and 25 minutes whether or not it irrigates, and with
    valves [1; 2] when it irrigates and no valve otherwise. *)
Lemma heuristic_constant_fields
    (weather : option WeatherReading.t) (last : option IrrigationEvent.t) :
  weather_is_numeric weather = true ->
  exists d,
    make_irrigation_decision weather last None = Ok d /\
    Decision.confidence d = 0.7%float /\
    Decision.duration_minutes d = 25 /\
    (Decision.should_irrigate d = true -> Decision.valves_to_open d = [1; 2]) /\
    (Decision.should_irrigate d = false -> Decision.valves_to_open d = []).
Proof.
  intros Hnum.
  assert (exists d, make_irrigation_decision weather last None = Ok d) as [d Hd].
  { destruct weather as [w|]; [|eexists; reflexivity].
    simpl in Hnum. apply andb_prop in Hnum as [Hnum Ht].
    apply andb_prop in Hnum as [Hr Hh].
    apply heuristic_returns; assumption. }
  exists d. split; [exact Hd|].
  destruct (heuristic_shape last weather d Hd) as (Hc & Hm & Hv).
  repeat split; try assumption; intros E; rewrite Hv, E; reflexivity.
Qed.

Example heuristic_constant_fields_dry_hot :
  exists d,
    make_irrigation_decision (Some dry_hot_reading) None None = Ok d /\
    Decision.confidence d = 0.7%float /\
    Decision.duration_minutes d = 25 /\
    (Decision.should_irrigate d = true -> Decision.valves_to_open d = [1; 2]) /\
    (Decision.should_irrigate d = false -> Decision.valves_to_open d = []).
Proof.
  apply (heuristic_constant_fields (Some dry_hot_reading) None).
  reflexivity.
Qed.

(** C10, at the failing input and elsewhere: the heuristic branch guards an
    absent weather but not an absent column: on a stored reading whose
    [humidity] is null (rain at most 5) the comparison [humidity > 70]
    raises, so the call returns no Decision, hence no confidence 0.7 and no
    25 minutes; on an absent weather and on every reading whose three
    compared columns are numbers it returns one, with confidence 0.7, 25
    minutes, and valves [1; 2] exactly when it irrigates. *)
Theorem C10_heuristic_fields_except_null_column :
  WeatherReading.humidity reading_without_humidity = PyNone /\
  make_irrigation_decision (Some reading_without_humidity) None None = Raise TypeError /\
  (forall weather last,
     weather_is_numeric weather = true ->
     exists d,
       make_irrigation_decision weather last None = Ok d /\
       Decision.confidence d = 0.7%float /\
       Decision.duration_minutes d = 25 /\
       (Decision.should_irrigate d = true -> Decision.valves_to_open d = [1; 2]) /\
       (Decision.should_irrigate d = false -> Decision.valves_to_open d = [])).
Proof.
  split; [reflexivity|]. split; [reflexivity|].
  intros weather last Hnum.
  apply heuristic_constant_fields. exact Hnum.
Qed.

(** ** Frame lemmas: what a handler leaves untouched *)

Section Frame.

Context {B : Type} (proj : World -> B).

Lemma keeps_ret {A} (a : A) : keeps proj (io_ret a).
Proof. intros w. reflexivity. Qed.

Lemma keeps_raise {A} (e : exn) : keeps proj (@io_raise A e).
Proof. intros w. reflexivity. Qed.

Lemma keeps_lift {A} (r : result A) : keeps proj (lift r).
Proof. intros w. reflexivity. Qed.

Lemma keeps_utcnow : keeps proj utcnow.
Proof. intros w. reflexivity. Qed.

Lemma keeps_bind {A C} (m : io A) (k : A -> io C) :
  keeps proj m -> (forall a, keeps proj (k a)) -> keeps proj (io_bind m k).
Proof.
  intros Hm Hk w. unfold io_bind.
  specialize (Hm w). destruct (m w) as [[a|e] w1]; simpl in *.
  - rewrite Hk. exact Hm.
  - exact Hm.
Qed.

Lemma keeps_try_except {A} (body : io A) (handler : exn -> io A) :
  keeps proj body -> (forall e, keeps proj (handler e)) ->
  keeps proj (try_except body handler).
Proof.
  intros Hb Hh w. unfold try_except.
  specialize (Hb w). destruct (body w) as [[a|e] w1]; simpl in *.
  - exact Hb.
  - rewrite Hh. exact Hb.
Qed.

Lemma keeps_mapM {A C} (f : A -> io C) (l : list A) :
  (forall x, keeps proj (f x)) -> keeps proj (io_mapM f l).
Proof.
  intros Hf. induction l as [|x l IH]; simpl.
  - apply keeps_ret.
  - apply keeps_bind; [apply Hf|]. intros y.
    apply keeps_bind; [exact IH|]. intros ys. apply keeps_ret.
Qed.

Lemma keeps_iter {A} (f : A -> io unit) (l : list A) :
  (forall x, keeps proj (f x)) -> keeps proj (io_iter f l).
Proof.
  intros Hf. induction l as [|x l IH]; simpl.
  - apply keeps_ret.
  - apply keeps_bind; [apply Hf|]. intros _. exact IH.
Qed.

Lemma keeps_repeat (n : nat) (body : io unit) :
  keeps proj body -> keeps proj (io_repeat n body).
Proof.
  intros Hb. induction n as [|n IH]; simpl.
  - apply keeps_ret.
  - apply keeps_bind; [exact Hb|]. intros _. exact IH.
Qed.

End Frame.

Create HintDb frame discriminated.

#[local] Hint Resolve keeps_ret keeps_raise keeps_lift keeps_utcnow : frame.
#[local] Hint Extern 2 (keeps _ (io_bind _ _)) => apply keeps_bind; [|intros ?] : frame.
#[local] Hint Extern 2 (keeps _ (io_mapM _ _)) => apply keeps_mapM; intros ? : frame.
#[local] Hint Extern 2 (keeps _ (io_iter _ _)) => apply keeps_iter; intros ? : frame.
#[local] Hint Extern 2 (keeps _ (io_repeat _ _)) => apply keeps_repeat : frame.
#[local] Hint Extern 1 (keeps _ (print _)) => intros ?; reflexivity : frame.
#[local] Hint Extern 1 (keeps _ (sleep _)) => intros ?; reflexivity : frame.
#[local] Hint Extern 1 (keeps _ (publish _ _)) => intros ?; reflexivity : frame.
#[local] Hint Extern 1 (keeps _ (commit_solenoid_states _ _)) =>
  intros ?; unfold commit_solenoid_states;
  destruct (result_mapM _ _); reflexivity : frame.
#[local] Hint Extern 1 (keeps _ (commit_weather_reading _ _)) =>
  intros ?; unfold commit_weather_reading;
  destruct (stored_weather_reading _ _); reflexivity : frame.
#[local] Hint Extern 1 (keeps _ (commit_irrigation_event _)) => intros ?; reflexivity : frame.

(** ** Telemetry ingestion *)





(** The object [save_weather_data] builds from a dict: each attribute is the
    payload's value for its key as it came, null when the key is missing. *)
Lemma save_weather_data_dict (db : Session) (d : gmap string pyval) (w : World) :
  save_weather_data db (PyDict d) w =
  commit_weather_reading db
    (WeatherReading.mk
       (default PyNone (d !! "temperature"))
       (default PyNone (d !! "humidity"))
       (default PyNone (d !! "pressure"))
       (default PyNone (d !! "wind_speed"))
       (default PyNone (d !! "rain_1h"))
       (default PyNone (d !! "solar_radiation"))
       (clock w)
       (default (PyStr "unknown") (d !! "device_id"))) w.
Proof.
  unfold save_weather_data, io_bind, lift, py_get, utcnow; simpl.
  unfold default.
  destruct (d !! "temperature"), (d !! "humidity"), (d !! "pressure"),
    (d !! "wind_speed"), (d !! "rain_1h"), (d !! "solar_radiation"),
    (d !! "device_id"); reflexivity.
Qed.

(** A null, a float and a moderate int are stored whatever the engine. *)
Lemma float_column_storable (db : Session) (v : pyval) :
  float_storable v = true -> float_column db v = Ok (stored_float v).
Proof.
  destruct v; simpl; intros H; try discriminate H; try reflexivity.
  rewrite H. reflexivity.
Qed.

Lemma weather_storable_fields (d : gmap string pyval) :
  weather_storable d = true ->
  float_storable (default PyNone (d !! "temperature")) = true /\
  float_storable (default PyNone (d !! "humidity")) = true /\
  float_storable (default PyNone (d !! "pressure")) = true /\
  float_storable (default PyNone (d !! "wind_speed")) = true /\
  float_storable (default PyNone (d !! "rain_1h")) = true /\
  float_storable (default PyNone (d !! "solar_radiation")) = true.
Proof.
  unfold weather_storable. cbn [forallb]. rewrite !andb_true_iff. tauto.
Qed.

(** A payload whose weather fields are numbers or missing is committed as
    one reading holding those numbers. *)
Lemma save_weather_data_storable (db : Session) (d : gmap string pyval) (w : World) :
  weather_storable d = true ->
  save_weather_data db (PyDict d) w =
    (Ok tt,
     mkWorld (clock w) (ml_model w) (published w) (solenoid_states w)
       (weather_readings w ++
        [WeatherReading.mk
           (stored_float (default PyNone (d !! "temperature")))
           (stored_float (default PyNone (d !! "humidity")))
           (stored_float (default PyNone (d !! "pressure")))
           (stored_float (default PyNone (d !! "wind_speed")))
           (stored_float (default PyNone (d !! "rain_1h")))
           (stored_float (default PyNone (d !! "solar_radiation")))
           (clock w)
           (default (PyStr "unknown") (d !! "device_id"))])
       (irrigation_events w) (farm_zones w) (connected_clients w)
       (ws_closed w) (delivered w) (tasks w) (stdout w)).
Proof.
  intros H. apply weather_storable_fields in H as (H1 & H2 & H3 & H4 & H5 & H6).
  rewrite save_weather_data_dict.
  unfold commit_weather_reading, stored_weather_reading. cbn [WeatherReading.temperature
    WeatherReading.humidity WeatherReading.pressure WeatherReading.wind_speed
    WeatherReading.rain_1h WeatherReading.solar_radiation WeatherReading.timestamp
    WeatherReading.device_id].
  rewrite !float_column_storable by assumption. reflexivity.
Qed.

(** When the commit of a reading raises, nothing is stored. *)
Lemma save_weather_data_raises (db : Session) (data : pyval) (w w' : World) (e : exn) :
  save_weather_data db data w = (Raise e, w') -> w' = w.
Proof.
  destruct data; try (intros H; inversion H; reflexivity).
  rewrite save_weather_data_dict. unfold commit_weather_reading.
  destruct (stored_weather_reading _ _); intros H; inversion H; reflexivity.
Qed.




(** ** Command dispatch *)

(** C5: for every valve number below 1 or above 10, [control_valve] raises
    the 400 error and leaves the whole world as it was: nothing is published
    and no event is stored; the range test comes first. *)
Theorem C5_control_valve_rejects_out_of_range
    (valve_number : Z) (command : ValveCommand.t) (w : World) :
  valve_number < 1 \/ 10 < valve_number ->
  control_valve valve_number command w =
    (Raise (HTTPException 400 "Válvula deve ser 1-10"), w).
Proof.
  intros H. unfold control_valve.
  replace ((valve_number <? 1) || (10 <? valve_number)) with true; [reflexivity|].
  symmetry. apply orb_true_iff.
  destruct H; [left; apply Z.ltb_lt | right; apply Z.ltb_lt]; assumption.
Qed.

Lemma C5_control_valve_rejects_out_of_range_witness :
  control_valve 0 (ValveCommand.mk true (Some 10)) empty_world =
    (Raise (HTTPException 400 "Válvula deve ser 1-10"), empty_world) /\
  control_valve 11 (ValveCommand.mk true (Some 10)) empty_world =
    (Raise (HTTPException 400 "Válvula deve ser 1-10"), empty_world).
Proof.
  split.
  - apply (C5_control_valve_rejects_out_of_range 0). left. lia.
  - apply (C5_control_valve_rejects_out_of_range 11). right. lia.
Defined.

(** An accepted manual command publishes one message and stores one event. *)
Lemma control_valve_in_range
    (valve_number : Z) (command : ValveCommand.t) (w : World) :
  1 <= valve_number <= 10 ->
  exists response payload event,
    control_valve valve_number command w =
      (Ok response,
       mkWorld (clock w) (ml_model w)
         (published w ++ [(command_topic, payload)])
         (solenoid_states w) (weather_readings w)
         (irrigation_events w ++ [event]) (farm_zones w)
         (connected_clients w) (ws_closed w) (delivered w) (tasks w) (stdout w)) /\
    IrrigationEvent.triggered_by event = "manual" /\
    IrrigationEvent.valve_number event = Some valve_number /\
    IrrigationEvent.action event = (if ValveCommand.state command then "ON" else "OFF").
Proof.
  intros [Hlo Hhi]. unfold control_valve.
  replace ((valve_number <? 1) || (10 <? valve_number)) with false.
  - do 3 eexists. split; [reflexivity|]. simpl. repeat split.
  - symmetry. apply orb_false_iff. split; apply Z.ltb_ge; lia.
Qed.

Lemma io_iter_publish (topic : string) (payload : Z -> pyval) (l : list Z) (w : World) :
  io_iter (fun valve => publish topic (payload valve)) l w =
    (Ok tt,
     mkWorld (clock w) (ml_model w)
       (published w ++ map (fun valve => (topic, payload valve)) l)
       (solenoid_states w) (weather_readings w) (irrigation_events w)
       (farm_zones w) (connected_clients w) (ws_closed w) (delivered w)
       (tasks w) (stdout w)).
Proof.
  revert w. induction l as [|valve l IH]; intros w.
  - destruct w. simpl. unfold io_ret. rewrite app_nil_r. reflexivity.
  - simpl. unfold io_bind at 1. simpl. rewrite IH. simpl.
    rewrite <- app_assoc. reflexivity.
Qed.

Lemma smart_irrigation_dispatches (zone_id : Z) (w : World) (d : Decision.t) :
  zone_decision zone_id w = Ok d ->
  Decision.should_irrigate d = true ->
  snd (smart_irrigation zone_id w) =
    mkWorld (clock w) (ml_model w)
      (published w ++
       map (fun valve =>
              (command_topic, valve_on_payload valve (Decision.duration_minutes d)))
           (Decision.valves_to_open d))
      (solenoid_states w) (weather_readings w)
      (irrigation_events w ++ [smart_event zone_id d (clock w)])
      (farm_zones w) (connected_clients w) (ws_closed w) (delivered w)
      (tasks w) (stdout w).
Proof.
  intros Hd Hs. unfold smart_irrigation.
  rewrite Hd. unfold io_bind at 1. unfold lift at 1.
  rewrite Hs. unfold io_bind at 1. unfold io_bind at 1.
  rewrite io_iter_publish. reflexivity.
Qed.

Lemma smart_irrigation_declines (zone_id : Z) (w : World) (d : Decision.t) :
  zone_decision zone_id w = Ok d ->
  Decision.should_irrigate d = false ->
  snd (smart_irrigation zone_id w) = w.
Proof.
  intros Hd Hs. unfold smart_irrigation.
  rewrite Hd. unfold io_bind at 1. unfold lift at 1.
  rewrite Hs. reflexivity.
Qed.

Lemma smart_irrigation_raises (zone_id : Z) (w : World) (e : exn) :
  zone_decision zone_id w = Raise e ->
  smart_irrigation zone_id w = (Raise e, w).
Proof.
  intros Hd. unfold smart_irrigation. rewrite Hd. reflexivity.
Qed.

Lemma all_valves_off_world (w : World) :
  snd (all_valves_off w) =
    mkWorld (clock w) (ml_model w)
      (published w ++
       [(command_topic,
         PyDict {[ "action" := PyStr "valve_all_off";
                   "timestamp" := PyIsoTime (clock w) ]})])
      (solenoid_states w) (weather_readings w) (irrigation_events w)
      (farm_zones w) (connected_clients w) (ws_closed w) (delivered w)
      (tasks w) (stdout w).
Proof. reflexivity. Qed.

(** C3, what each dispatch path stores: an accepted [control_valve] command
    appends exactly one event, with [triggered_by] "manual";
    [smart_irrigation] appends exactly one event, with [triggered_by]
    "ml_model", when its decision is to irrigate and none when it is not;
    [all_valves_off], unlike the two, publishes its command and appends no
    event at all, on every world. *)
Theorem C3_events_appended_per_action :
  (forall valve_number command w,
     1 <= valve_number <= 10 ->
     exists event,
       irrigation_events (snd (control_valve valve_number command w)) =
         irrigation_events w ++ [event] /\
       IrrigationEvent.triggered_by event = "manual") /\
  (forall zone_id w d,
     zone_decision zone_id w = Ok d ->
     Decision.should_irrigate d = true ->
     exists event,
       irrigation_events (snd (smart_irrigation zone_id w)) =
         irrigation_events w ++ [event] /\
       IrrigationEvent.triggered_by event = "ml_model") /\
  (forall zone_id w d,
     zone_decision zone_id w = Ok d ->
     Decision.should_irrigate d = false ->
     irrigation_events (snd (smart_irrigation zone_id w)) = irrigation_events w) /\
  (forall w,
     irrigation_events (snd (all_valves_off w)) = irrigation_events w /\
     length (published (snd (all_valves_off w))) = S (length (published w))).
Proof.
  split; [|split; [|split]].
  - intros valve_number command w Hrange.
    destruct (control_valve_in_range valve_number command w Hrange)
      as (response & payload & event & Hrun & Hby & _).
    exists event. rewrite Hrun. simpl. split; [reflexivity | exact Hby].
  - intros zone_id w d Hd Hs.
    exists (smart_event zone_id d (clock w)).
    rewrite (smart_irrigation_dispatches zone_id w d Hd Hs). simpl.
    split; reflexivity.
  - intros zone_id w d Hd Hs.
    rewrite (smart_irrigation_declines zone_id w d Hd Hs). reflexivity.
  - intros w. rewrite all_valves_off_world. simpl.
    split; [reflexivity|]. rewrite length_app. simpl. lia.
Qed.

(** On the empty world [all_valves_off] publishes the "valve_all_off"
    command and the event table stays empty. *)
Example all_valves_off_on_empty_world :
  published (snd (all_valves_off empty_world)) =
    [(command_topic,
      PyDict {[ "action" := PyStr "valve_all_off"; "timestamp" := PyIsoTime 1000 ]})] /\
  irrigation_events (snd (all_valves_off empty_world)) = [].
Proof. split; reflexivity. Qed.

(** [ndarray.max()] on two rows of class probabilities. *)
Example np_max_rows :
  np_max (0.1%float, [0.9%float]) = 0.9%float /\
  np_max (0.8%float, [0.15%float; 0.05%float]) = 0.8%float.
Proof. split; reflexivity. Qed.

(** C4, on every input and at the failing one: with a model the features
    are temperature, humidity and rain in that order, 25 / 60 / 0 without a
    reading; when the model answers, label 1 gives irrigation, the reason is
    "ml_prediction", the confidence the largest class probability and the
    duration 30 minutes (when it raises, so does the call); but the valves
    are the literal 1, 2, 3: for every zone id a positive prediction
    commands those three valves, and with zone 2 owning valves 7 and 8
    [smart_irrigation 2] commands 1, 2 and 3 and neither 7 nor 8. *)
Theorem C4_ml_valves_ignore_the_zone :
  (forall m weather last label row,
     predict m (ml_features weather) = Ok label ->
     predict_proba m (ml_features weather) = Ok row ->
     make_irrigation_decision weather last (Some m) =
     Ok {| Decision.should_irrigate := label =? 1;
           Decision.confidence := np_max row;
           Decision.reason := "ml_prediction";
           Decision.valves_to_open := [1; 2; 3];
           Decision.duration_minutes := 30 |}) /\
  (forall m weather last e,
     predict m (ml_features weather) = Raise e \/
     (exists label,
        predict m (ml_features weather) = Ok label /\
        predict_proba m (ml_features weather) = Raise e) ->
     make_irrigation_decision weather last (Some m) = Raise e) /\
  ml_features None = [PyInt 25; PyInt 60; PyInt 0] /\
  (forall zone_id w m row,
     ml_model w = Some m ->
     predict m (ml_features (latest_weather w)) = Ok 1 ->
     predict_proba m (ml_features (latest_weather w)) = Ok row ->
     published (snd (smart_irrigation zone_id w)) =
       published w ++
       [(command_topic, valve_on_payload 1 30);
        (command_topic, valve_on_payload 2 30);
        (command_topic, valve_on_payload 3 30)]) /\
  farm_zones zone2_world = [FarmZone.mk 2 [7; 8]] /\
  published (snd (smart_irrigation 2 zone2_world)) =
    [(command_topic, valve_on_payload 1 30);
     (command_topic, valve_on_payload 2 30);
     (command_topic, valve_on_payload 3 30)].
Proof.
  split; [intros m weather last label row; apply ml_branch|].
  split; [intros m weather last e; apply ml_branch_raises|].
  split; [reflexivity|].
  split; [|split; vm_compute; reflexivity].
  intros zone_id w m row Hm Hlabel Hrow.
  assert (zone_decision zone_id w =
          Ok (Decision.mk true (np_max row) "ml_prediction" [1; 2; 3] 30)) as Hd.
  { unfold zone_decision. rewrite Hm.
    rewrite (ml_branch _ m (latest_weather w) 1 row Hlabel Hrow). reflexivity. }
  rewrite (smart_irrigation_dispatches zone_id w _ Hd eq_refl). reflexivity.
Qed.

(** ** Telemetry ingestion: when the live update is queued *)

(** How a run of [on_mqtt_message] on a parsed payload ends, by the outcome
    of the routing step. *)
Lemma on_mqtt_message_after_step
    (running_loop : bool) (db : Session) (msg : MQTTMessage) (payload : pyval)
    (w : World) :
  payload_json msg = Some payload ->
  on_mqtt_message running_loop db msg w =
    match route_by_topic db (topic msg) payload
            (snd (print [Lit "📨 MQTT: "; Val (PyStr (topic msg))] w)) with
    | (Ok _, w2) =>
        if running_loop
        then create_task true (mqtt_update (topic msg) payload) w2
        else print [Lit "❌ Erro MQTT: "; Exc RuntimeError] w2
    | (Raise e, w2) => print [Lit "❌ Erro MQTT: "; Exc e] w2
    end.
Proof.
  intros Hparse.
  unfold on_mqtt_message, try_except. rewrite Hparse.
  unfold io_bind at 1. unfold lift at 1.
  unfold io_bind at 1. cbn [print snd].
  unfold io_bind at 1.
  destruct (route_by_topic db (topic msg) payload _) as [[[]|e] w2];
    [|reflexivity].
  destruct running_loop; reflexivity.
Qed.




(** ** Periodic tasks *)

(** C7, what a firing does: each round of the smart-advisor task sleeps
    21600 seconds (6 hours) and prints one advisory line; no zone is
    evaluated and [smart_irrigation] is not invoked: after any number of
    rounds the outbox, the tables, the observers and the task queue are as
    before. *)
Theorem C7_advisor_only_logs (rounds : nat) (w : World) :
  ml_irrigation_advisor rounds w =
    (Ok tt,
     mkWorld (clock w + 21600 * Z.of_nat rounds) (ml_model w) (published w)
       (solenoid_states w) (weather_readings w) (irrigation_events w)
       (farm_zones w) (connected_clients w) (ws_closed w) (delivered w)
       (tasks w) (stdout w ++ repeat advisor_line rounds)).
Proof.
  unfold ml_irrigation_advisor. revert w.
  induction rounds as [|n IH]; intros w.
  - destruct w. simpl. unfold io_ret. simpl.
    rewrite app_nil_r. do 2 f_equal. lia.
  - cbn [io_repeat]. unfold io_bind at 1. unfold io_bind at 1.
    cbn [sleep print]. rewrite IH. cbn [clock ml_model published solenoid_states
      weather_readings irrigation_events farm_zones connected_clients ws_closed
      delivered tasks stdout].
    rewrite <- app_assoc. cbn [repeat app]. do 2 f_equal. lia.
Qed.

(** With zone 1 configured and a hot, dry latest reading,
    [smart_irrigation 1] commands valves 1 and 2 and stores an event, while
    a firing of the advisor publishes and stores nothing. *)
Example advisor_round_on_dry_world :
  farm_zones dry_world = [FarmZone.mk 1 [1; 2]] /\
  published (snd (smart_irrigation 1 dry_world)) =
    [(command_topic, valve_on_payload 1 25); (command_topic, valve_on_payload 2 25)] /\
  length (irrigation_events (snd (smart_irrigation 1 dry_world))) = 1%nat /\
  published (snd (ml_irrigation_advisor 1 dry_world)) = [] /\
  irrigation_events (snd (ml_irrigation_advisor 1 dry_world)) = [].
Proof. repeat split; vm_compute; reflexivity. Qed.

(** ** Live notification *)

Section Observers.

Variable closed : gset nat.

Lemma list_remove_other (x y : nat) (l : list nat) :
  y <> x -> list_remove x (y :: l) = y :: list_remove x l.
Proof. intros Hne. simpl. rewrite bool_decide_eq_false_2; [reflexivity|exact Hne]. Qed.

Lemma list_remove_head (x : nat) (l : list nat) :
  list_remove x (x :: l) = l.
Proof. simpl. rewrite bool_decide_eq_true_2; reflexivity. Qed.

(** An observer that is in none of the failed deliveries stays in front. *)
Lemma remove_all_keeps_head (x : nat) (ds l : list nat) :
  x ∉ ds -> remove_all ds (x :: l) = x :: remove_all ds l.
Proof.
  revert l. induction ds as [|d ds IH]; intros l Hx; [reflexivity|].
  apply not_elem_of_cons in Hx as [Hne Hx].
  cbn [remove_all].
  destruct (decide (d ∈ l)) as [Hin | Hin].
  - rewrite (bool_decide_eq_true_2 (d ∈ x :: l))
      by (apply elem_of_cons; right; exact Hin).
    rewrite (bool_decide_eq_true_2 (d ∈ l)) by exact Hin.
    rewrite list_remove_other by exact Hne. apply IH, Hx.
  - rewrite (bool_decide_eq_false_2 (d ∈ x :: l))
      by (intros [Heq | Hl]%elem_of_cons; [congruence | contradiction]).
    rewrite (bool_decide_eq_false_2 (d ∈ l)) by exact Hin.
    apply IH, Hx.
Qed.

(** Removing each failed observer once leaves exactly the live ones, in
    their order, duplicates included. *)
Lemma remove_all_failed (l : list nat) :
  remove_all (filter (fun c => c ∈ closed) l) l = filter (fun c => c ∉ closed) l.
Proof.
  induction l as [|x l IH]; [reflexivity|].
  destruct (decide (x ∈ closed)) as [Hx | Hx].
  - rewrite filter_cons_True by exact Hx.
    rewrite filter_cons_False by (intros Hn; exact (Hn Hx)).
    cbn [remove_all]. rewrite bool_decide_eq_true_2 by (apply elem_of_cons; auto).
    rewrite list_remove_head. exact IH.
  - rewrite filter_cons_False by exact Hx.
    rewrite filter_cons_True by exact Hx.
    rewrite remove_all_keeps_head; [rewrite IH; reflexivity|].
    intros [Hc _]%list_elem_of_filter. contradiction.
Qed.

Lemma filter_live_idempotent (l : list nat) :
  filter (fun c => c ∉ closed) (filter (fun c => c ∉ closed) l) =
  filter (fun c => c ∉ closed) l.
Proof.
  induction l as [|x l IH]; [reflexivity|].
  destruct (decide (x ∈ closed)) as [Hx | Hx].
  - rewrite filter_cons_False by (intros Hn; exact (Hn Hx)). exact IH.
  - rewrite filter_cons_True by exact Hx.
    rewrite filter_cons_True by exact Hx. rewrite IH. reflexivity.
Qed.

End Observers.

(** The first loop: every observer is tried; the live ones get the frame,
    the others are collected. *)
Lemma send_loop (message : pyval) (l acc : list nat) (w : World) :
  io_fold
    (fun disconnected client =>
       try_except
         (run send_json client message ;; io_ret disconnected)
         (fun _ => io_ret (disconnected ++ [client])))
    l acc w =
  (Ok (acc ++ filter (fun c => c ∈ ws_closed w) l),
   mkWorld (clock w) (ml_model w) (published w) (solenoid_states w)
     (weather_readings w) (irrigation_events w) (farm_zones w)
     (connected_clients w) (ws_closed w)
     (delivered w ++ map (fun c => (c, message)) (filter (fun c => c ∉ ws_closed w) l))
     (tasks w) (stdout w)).
Proof.
  revert acc w. induction l as [|x l IH]; intros acc w.
  - destruct w. simpl. unfold io_ret. simpl. rewrite !app_nil_r. reflexivity.
  - cbn [io_fold]. unfold io_bind at 1, try_except at 1, io_bind at 1, send_json at 1.
    destruct (decide (x ∈ ws_closed w)) as [Hx | Hx].
    + rewrite bool_decide_eq_true_2 by exact Hx.
      unfold io_ret at 1. rewrite IH.
      rewrite filter_cons_True by exact Hx.
      rewrite filter_cons_False by (intros Hn; exact (Hn Hx)).
      rewrite <- app_assoc. reflexivity.
    + rewrite bool_decide_eq_false_2 by exact Hx.
      unfold io_ret at 1. rewrite IH.
      cbn [clock ml_model published solenoid_states weather_readings
           irrigation_events farm_zones connected_clients ws_closed delivered
           tasks stdout].
      rewrite filter_cons_False by exact Hx.
      rewrite filter_cons_True by exact Hx.
      rewrite <- app_assoc. reflexivity.
Qed.

(** The second loop acts on the observer list as [remove_all] does. *)
Lemma remove_loop (ds : list nat) (w : World) :
  io_iter
    (fun client w' =>
       if bool_decide (client ∈ connected_clients w')
       then set_connected_clients (list_remove client (connected_clients w')) w'
       else io_ret tt w')
    ds w =
  (Ok tt,
   mkWorld (clock w) (ml_model w) (published w) (solenoid_states w)
     (weather_readings w) (irrigation_events w) (farm_zones w)
     (remove_all ds (connected_clients w)) (ws_closed w) (delivered w)
     (tasks w) (stdout w)).
Proof.
  revert w. induction ds as [|d ds IH]; intros w.
  - destruct w. reflexivity.
  - cbn [io_iter remove_all]. unfold io_bind at 1.
    destruct (bool_decide (d ∈ connected_clients w)).
    + unfold set_connected_clients at 1. rewrite IH. reflexivity.
    + unfold io_ret at 1. rewrite IH. reflexivity.
Qed.

Lemma notify_clients_world (message : pyval) (w : World) :
  notify_clients message w =
  (Ok tt,
   mkWorld (clock w) (ml_model w) (published w) (solenoid_states w)
     (weather_readings w) (irrigation_events w) (farm_zones w)
     (filter (fun c => c ∉ ws_closed w) (connected_clients w)) (ws_closed w)
     (delivered w ++
      map (fun c => (c, message))
          (filter (fun c => c ∉ ws_closed w) (connected_clients w)))
     (tasks w) (stdout w)).
Proof.
  unfold notify_clients. unfold io_bind at 1. rewrite send_loop. rewrite remove_loop.
  cbn [clock ml_model published solenoid_states weather_readings
       irrigation_events farm_zones connected_clients ws_closed delivered
       tasks stdout app].
  rewrite remove_all_failed. reflexivity.
Qed.

(** C8: a broadcast tries every registered observer: each observer whose
    socket is live receives the frame, wherever the failing ones sit in the
    list; exactly the observers whose delivery failed are removed; and the
    next broadcast reaches all the observers that remained, which stay
    registered. *)
Theorem C8_broadcast_survives_failed_observers (message next : pyval) (w : World) :
  let live := filter (fun c => c ∉ ws_closed w) (connected_clients w) in
  let w' := snd (notify_clients message w) in
  fst (notify_clients message w) = Ok tt /\
  delivered w' = delivered w ++ map (fun c => (c, message)) live /\
  connected_clients w' = live /\
  (forall c, c ∈ connected_clients w' <-> c ∈ connected_clients w /\ c ∉ ws_closed w) /\
  delivered (snd (notify_clients next w')) =
    delivered w' ++ map (fun c => (c, next)) live /\
  connected_clients (snd (notify_clients next w')) = live.
Proof.
  cbv zeta. rewrite !notify_clients_world.
  cbn [fst snd clock ml_model published solenoid_states weather_readings
       irrigation_events farm_zones connected_clients ws_closed delivered
       tasks stdout].
  rewrite filter_live_idempotent.
  do 3 (split; [reflexivity|]).
  split; [|split; reflexivity].
  intros c. rewrite list_elem_of_filter. tauto.
Qed.

(** The spec's scenario: three observers, the second fails. *)
Example broadcast_three_observers :
  let w' := snd (notify_clients (PyStr "a") three_observers) in
  connected_clients w' = [1; 3]%nat /\
  delivered w' = [(1%nat, PyStr "a"); (3%nat, PyStr "a")] /\
  delivered (snd (notify_clients (PyStr "b") w')) =
    [(1%nat, PyStr "a"); (3%nat, PyStr "a"); (1%nat, PyStr "b"); (3%nat, PyStr "b")].
Proof. repeat split; vm_compute; reflexivity. Qed.

(** * Further properties of the handlers *)

(** ** The most recent row *)

Section Latest.

Context {A : Type} (timestamp : A -> Z).

Lemma latest_fold_elem (l : list A) (acc : option A) (b : A) :
  fold_left (latest_step timestamp) l acc = Some b -> acc = Some b \/ b ∈ l.
Proof.
  revert acc. induction l as [|x l IH]; intros acc H; simpl in H.
  - left. exact H.
  - apply IH in H as [H | H].
    + destruct acc as [a|]; simpl in H.
      * destruct (timestamp a <? timestamp x); inversion H; subst.
        -- right. apply elem_of_cons. left. reflexivity.
        -- left. reflexivity.
      * inversion H; subst. right. apply elem_of_cons. left. reflexivity.
    + right. apply elem_of_cons. right. exact H.
Qed.

Lemma latest_fold_Some (l : list A) (a : A) :
  exists b, fold_left (latest_step timestamp) l (Some a) = Some b.
Proof.
  revert a. induction l as [|x l IH]; intros a; simpl.
  - eauto.
  - destruct (timestamp a <? timestamp x); apply IH.
Qed.

(** The query answers with a row of the table. *)
Lemma latest_elem (l : list A) (b : A) :
  latest timestamp l = Some b -> b ∈ l.
Proof.
  intros H. apply latest_fold_elem in H as [H | H]; [discriminate H | exact H].
Qed.

(** It finds nothing only in an empty table. *)
Lemma latest_None (l : list A) :
  latest timestamp l = None <-> l = [].
Proof.
  split; [|intros ->; reflexivity].
  destruct l as [|x l]; [reflexivity|].
  unfold latest. simpl. intros H.
  destruct (latest_fold_Some l x) as [b Hb].
  unfold latest_step in Hb. rewrite Hb in H. discriminate H.
Qed.

(** A row appended with a timestamp above all the stored ones is the one
    found. *)
Lemma latest_snoc_newer (l : list A) (x : A) :
  Forall (fun r => timestamp r < timestamp x) l ->
  latest timestamp (l ++ [x]) = Some x.
Proof.
  intros Hl. unfold latest. rewrite fold_left_app. simpl.
  destruct (fold_left _ l None) as [b|] eqn:Hb; [|reflexivity].
  apply latest_elem in Hb.
  rewrite Forall_forall in Hl. specialize (Hl b Hb).
  apply Z.ltb_lt in Hl. rewrite Hl. reflexivity.
Qed.

End Latest.

(** ** Decision engine: when the heuristic irrigates and how it fails *)

(** X1: with no model the call recommends irrigation exactly when the rain
    test answered "not above 5", the humidity test "not above 70", the
    temperature test "above 30" and the dryness test "below 40"; in every
    other case, a raise included, there is no recommendation. *)
Theorem heuristic_irrigates_iff
    (w : WeatherReading.t) (last : option IrrigationEvent.t) :
  (exists d,
     make_irrigation_decision (Some w) last None = Ok d /\
     Decision.should_irrigate d = true) <->
  py_gt (WeatherReading.rain_1h w) 5 = Ok false /\
  py_gt (WeatherReading.humidity w) 70 = Ok false /\
  py_gt (WeatherReading.temperature w) 30 = Ok true /\
  py_lt (WeatherReading.humidity w) 40 = Ok true.
Proof.
  unfold make_irrigation_decision. simpl. split.
  - intros (d & Hd & Hs). revert Hd.
    destruct (py_gt (WeatherReading.rain_1h w) 5) as [[|]|]; simpl;
      [intros H; inversion H; subst; discriminate Hs | | discriminate].
    destruct (py_gt (WeatherReading.humidity w) 70) as [[|]|]; simpl;
      [intros H; inversion H; subst; discriminate Hs | | discriminate].
    destruct (py_gt (WeatherReading.temperature w) 30) as [[|]|]; simpl;
      [ | intros H; inversion H; subst; discriminate Hs | discriminate].
    destruct (py_lt (WeatherReading.humidity w) 40) as [[|]|]; simpl;
      [ | intros H; inversion H; subst; discriminate Hs | discriminate].
    intros _. repeat split.
  - intros (-> & -> & -> & ->). simpl. eexists. split; reflexivity.
Qed.

(** X2: the decision can fail in two ways only: without a model, with a
    [TypeError] on a reading one of whose compared columns is not a number;
    with a model, with the very exception that [predict], or after it
    [predict_proba], raised. *)
Theorem decision_failure_causes
    (weather : option WeatherReading.t) (last : option IrrigationEvent.t)
    (model : option Predictor) (e : exn) :
  make_irrigation_decision weather last model = Raise e ->
  match model with
  | None => e = TypeError /\ weather_is_numeric weather = false
  | Some m =>
      predict m (ml_features weather) = Raise e \/
      (exists label,
         predict m (ml_features weather) = Ok label /\
         predict_proba m (ml_features weather) = Raise e)
  end.
Proof.
  intros H.
  destruct model as [m|].
  - revert H. unfold make_irrigation_decision. cbv zeta.
    destruct (predict m (ml_features weather)) as [label|e1]; simpl.
    + destruct (predict_proba m (ml_features weather)) as [row|e2]; simpl;
        intros H; inversion H; subst.
      right. exists label. split; reflexivity.
    + intros H. inversion H; subst. left. reflexivity.
  - destruct (weather_is_numeric weather) eqn:Hnum.
    + destruct (heuristic_constant_fields weather last Hnum) as (d & Hd & _).
      rewrite Hd in H. discriminate H.
    + split; [|reflexivity].
      destruct weather as [w|]; [|discriminate Hnum].
      revert H. unfold make_irrigation_decision. simpl.
      destruct (WeatherReading.rain_1h w); simpl;
        try (intros H; inversion H; reflexivity);
        (match goal with |- context [if ?c then _ else _] => destruct c end; simpl;
         [discriminate|]);
        destruct (WeatherReading.humidity w); simpl;
        try (intros H; inversion H; reflexivity);
        (match goal with |- context [if ?c then _ else _] => destruct c end; simpl;
         [discriminate|]);
        destruct (WeatherReading.temperature w); simpl;
        try (intros H; inversion H; reflexivity);
        repeat (match goal with |- context [if ?c then _ else _] => destruct c end;
                simpl);
        discriminate.
Qed.

Lemma decision_failure_causes_witness :
  TypeError = TypeError /\ weather_is_numeric (Some reading_without_rain) = false.
Proof.
  apply (decision_failure_causes (Some reading_without_rain) None None TypeError).
  reflexivity.
Defined.

(** ** Smart irrigation end to end *)

Lemma zone_decision_without_model (zone_id : Z) (w : World) :
  ml_model w = None ->
  zone_decision zone_id w = make_irrigation_decision (latest_weather w) None None.
Proof. intros H. unfold zone_decision. rewrite H. reflexivity. Qed.

Lemma smart_irrigation_declines_run (zone_id : Z) (w : World) (d : Decision.t) :
  zone_decision zone_id w = Ok d ->
  Decision.should_irrigate d = false ->
  smart_irrigation zone_id w =
    (Ok (PyDict {[ "decision" := PyBool false;
                   "confidence" := PyFloat (Decision.confidence d);
                   "reason" := PyStr (Decision.reason d);
                   "valves" := PyList (PyInt <$> Decision.valves_to_open d);
                   "duration" := PyInt (Decision.duration_minutes d) ]}), w).
Proof.
  intros Hd Hs. unfold smart_irrigation.
  rewrite Hd. unfold io_bind at 1. unfold lift at 1.
  rewrite Hs. reflexivity.
Qed.

Lemma smart_irrigation_dispatches_run (zone_id : Z) (w : World) (d : Decision.t) :
  zone_decision zone_id w = Ok d ->
  Decision.should_irrigate d = true ->
  fst (smart_irrigation zone_id w) =
    Ok (PyDict {[ "decision" := PyBool true;
                  "confidence" := PyFloat (Decision.confidence d);
                  "reason" := PyStr (Decision.reason d);
                  "valves" := PyList (PyInt <$> Decision.valves_to_open d);
                  "duration" := PyInt (Decision.duration_minutes d) ]}).
Proof.
  intros Hd Hs. unfold smart_irrigation.
  rewrite Hd. unfold io_bind at 1. unfold lift at 1.
  rewrite Hs. unfold io_bind at 1. unfold io_bind at 1.
  rewrite io_iter_publish. reflexivity.
Qed.

(** X3: with no model and no weather reading at all, [smart_irrigation]
    answers "do not irrigate" with an empty reason and leaves the world
    exactly as it was: it never irrigates blind. *)
Theorem smart_irrigation_never_blind (zone_id : Z) (w : World) :
  ml_model w = None ->
  weather_readings w = [] ->
  smart_irrigation zone_id w =
    (Ok (PyDict {[ "decision" := PyBool false;
                   "confidence" := PyFloat 0.7;
                   "reason" := PyStr "";
                   "valves" := PyList [];
                   "duration" := PyInt 25 ]}), w).
Proof.
  intros Hm Hw.
  assert (zone_decision zone_id w = Ok (Decision.mk false 0.7%float "" [] 25)) as Hd.
  { rewrite zone_decision_without_model by exact Hm.
    unfold latest_weather. rewrite Hw. reflexivity. }
  rewrite (smart_irrigation_declines_run zone_id w _ Hd eq_refl). reflexivity.
Qed.

Lemma smart_irrigation_never_blind_witness :
  smart_irrigation 1 empty_world =
    (Ok (PyDict {[ "decision" := PyBool false;
                   "confidence" := PyFloat 0.7;
                   "reason" := PyStr "";
                   "valves" := PyList [];
                   "duration" := PyInt 25 ]}), empty_world).
Proof.
  apply (smart_irrigation_never_blind 1 empty_world); reflexivity.
Defined.

(** X4: with no model, when the latest reading shows more than 5 mm of rain
    [smart_irrigation] publishes nothing and stores nothing, whatever the
    other columns of that reading hold, nulls and text included. *)
Theorem smart_irrigation_rain_veto
    (zone_id : Z) (w : World) (r : WeatherReading.t) :
  ml_model w = None ->
  latest_weather w = Some r ->
  py_gt (WeatherReading.rain_1h r) 5 = Ok true ->
  smart_irrigation zone_id w =
    (Ok (PyDict {[ "decision" := PyBool false;
                   "confidence" := PyFloat 0.7;
                   "reason" := PyStr "Chuva recente detectada";
                   "valves" := PyList [];
                   "duration" := PyInt 25 ]}), w).
Proof.
  intros Hm Hr Hrain.
  assert (zone_decision zone_id w =
          Ok (Decision.mk false 0.7%float "Chuva recente detectada" [] 25)) as Hd.
  { rewrite zone_decision_without_model by exact Hm. rewrite Hr.
    unfold make_irrigation_decision. simpl. rewrite Hrain. reflexivity. }
  rewrite (smart_irrigation_declines_run zone_id w _ Hd eq_refl). reflexivity.
Qed.

Lemma smart_irrigation_rain_veto_witness :
  smart_irrigation 1 rainy_world =
    (Ok (PyDict {[ "decision" := PyBool false;
                   "confidence" := PyFloat 0.7;
                   "reason" := PyStr "Chuva recente detectada";
                   "valves" := PyList [];
                   "duration" := PyInt 25 ]}), rainy_world).
Proof.
  apply (smart_irrigation_rain_veto 1 rainy_world
           (reading PyNone (PyStr "n/a") (PyFloat 6))); reflexivity.
Defined.

(** X5: with no model, when the latest reading is not rainy (at most 5),
    not humid (at most 70), hot (above 30) and dry (below 40),
    [smart_irrigation] publishes exactly two commands, "valve_on" for valve
    1 and for valve 2 with 25 minutes each, and stores exactly one
    "SMART_ON" event for the zone asked, by "ml_model", with confidence 0.7;
    nothing else changes. *)
Theorem smart_irrigation_water_stress
    (zone_id : Z) (w : World) (r : WeatherReading.t) :
  ml_model w = None ->
  latest_weather w = Some r ->
  py_gt (WeatherReading.rain_1h r) 5 = Ok false ->
  py_gt (WeatherReading.humidity r) 70 = Ok false ->
  py_gt (WeatherReading.temperature r) 30 = Ok true ->
  py_lt (WeatherReading.humidity r) 40 = Ok true ->
  snd (smart_irrigation zone_id w) =
    mkWorld (clock w) (ml_model w)
      (published w ++
       [(command_topic, valve_on_payload 1 25);
        (command_topic, valve_on_payload 2 25)])
      (solenoid_states w) (weather_readings w)
      (irrigation_events w ++
       [IrrigationEvent.mk None zone_id "SMART_ON" (Some 25) "ml_model"
          (Some 0.7%float) (clock w)])
      (farm_zones w) (connected_clients w) (ws_closed w) (delivered w)
      (tasks w) (stdout w).
Proof.
  intros Hm Hr H1 H2 H3 H4.
  assert (zone_decision zone_id w =
          Ok (Decision.mk true 0.7%float "Condições de estresse hídrico" [1; 2] 25))
    as Hd.
  { rewrite zone_decision_without_model by exact Hm. rewrite Hr.
    unfold make_irrigation_decision. simpl.
    rewrite H1. simpl. rewrite H2. simpl. rewrite H3. simpl. rewrite H4.
    reflexivity. }
  rewrite (smart_irrigation_dispatches zone_id w _ Hd eq_refl). reflexivity.
Qed.

Lemma smart_irrigation_water_stress_witness :
  length (published (snd (smart_irrigation 1 dry_world))) = 2%nat /\
  length (irrigation_events (snd (smart_irrigation 1 dry_world))) = 1%nat.
Proof.
  rewrite (smart_irrigation_water_stress 1 dry_world dry_hot_reading);
    [split; reflexivity | reflexivity ..].
Defined.

(** X6: the decision and the commands do not depend on the zone asked: for
    any two zone ids [smart_irrigation] returns the same response and
    publishes the same commands on the same world. *)
Theorem smart_irrigation_same_for_every_zone (zone1 zone2 : Z) (w : World) :
  fst (smart_irrigation zone1 w) = fst (smart_irrigation zone2 w) /\
  published (snd (smart_irrigation zone1 w)) =
  published (snd (smart_irrigation zone2 w)).
Proof.
  assert (zone_decision zone1 w = zone_decision zone2 w) as Hz by reflexivity.
  destruct (zone_decision zone2 w) as [d|e] eqn:Hd.
  - destruct (Decision.should_irrigate d) eqn:Hs.
    + rewrite (smart_irrigation_dispatches zone1 w d Hz Hs).
      rewrite (smart_irrigation_dispatches zone2 w d Hd Hs).
      rewrite (smart_irrigation_dispatches_run zone1 w d Hz Hs).
      rewrite (smart_irrigation_dispatches_run zone2 w d Hd Hs).
      split; reflexivity.
    + rewrite (smart_irrigation_declines_run zone1 w d Hz Hs).
      rewrite (smart_irrigation_declines_run zone2 w d Hd Hs).
      split; reflexivity.
  - rewrite (smart_irrigation_raises zone1 w e Hz).
    rewrite (smart_irrigation_raises zone2 w e Hd).
    split; reflexivity.
Qed.

(** X7: a weather payload without the "rain_1h" key, once stored as the
    newest reading, makes [smart_irrigation] fail: with no model every call,
    for every zone, raises [TypeError] and publishes and stores nothing. *)
Theorem smart_irrigation_fails_after_reading_without_rain
    (db : Session) (d : gmap string pyval) (zone_id : Z) (w : World) :
  d !! "rain_1h" = None ->
  ml_model w = None ->
  Forall (fun r => WeatherReading.timestamp r < clock w) (weather_readings w) ->
  fst (save_weather_data db (PyDict d) w) = Ok tt ->
  let w' := snd (save_weather_data db (PyDict d) w) in
  smart_irrigation zone_id w' = (Raise TypeError, w').
Proof.
  intros Hrain Hm Hold Hsaved w'.
  apply smart_irrigation_raises.
  subst w'. revert Hsaved. rewrite save_weather_data_dict.
  unfold commit_weather_reading.
  destruct (stored_weather_reading db _) as [stored|e] eqn:E;
    [intros _ | discriminate].
  assert (WeatherReading.rain_1h stored = PyNone /\
          WeatherReading.timestamp stored = clock w) as [Hr Ht].
  { revert E. unfold stored_weather_reading. rewrite Hrain.
    cbn [WeatherReading.temperature WeatherReading.humidity WeatherReading.pressure
         WeatherReading.wind_speed WeatherReading.rain_1h
         WeatherReading.solar_radiation WeatherReading.timestamp
         WeatherReading.device_id default from_option float_column].
    destruct (float_column db _) as [v1|]; [|discriminate]. cbn [result_bind].
    destruct (float_column db _) as [v2|]; [|discriminate]. cbn [result_bind].
    destruct (float_column db _) as [v3|]; [|discriminate]. cbn [result_bind].
    destruct (float_column db _) as [v4|]; [|discriminate]. cbn [result_bind].
    destruct (float_column db _) as [v6|]; [|discriminate]. cbn [result_bind].
    intros H. inversion H. split; reflexivity. }
  rewrite zone_decision_without_model by exact Hm.
  unfold latest_weather. cbn [snd weather_readings].
  rewrite latest_snoc_newer by (rewrite Ht; exact Hold).
  unfold make_irrigation_decision. cbn [result_bind]. rewrite Hr. reflexivity.
Qed.

Lemma smart_irrigation_fails_after_reading_without_rain_witness :
  smart_irrigation 1
    (snd (save_weather_data strict_session (PyDict payload_without_rain) empty_world)) =
    (Raise TypeError,
     snd (save_weather_data strict_session (PyDict payload_without_rain) empty_world)).
Proof.
  apply (smart_irrigation_fails_after_reading_without_rain
           strict_session payload_without_rain 1 empty_world);
    [reflexivity | reflexivity | constructor | reflexivity].
Defined.

(** ** Telemetry ingestion: what a message can and cannot do *)

Ltac keeps_tac :=
  repeat first
    [ apply keeps_ret | apply keeps_raise | apply keeps_lift | apply keeps_utcnow
    | apply keeps_bind; [|intros ?]
    | apply keeps_try_except; [|intros ?]
    | apply keeps_mapM; intros ?
    | apply keeps_iter; intros ?
    | (intros ?; reflexivity)
    | (intros ?; unfold commit_solenoid_states;
       destruct (result_mapM _ _); reflexivity)
    | (intros ?; unfold commit_weather_reading;
       destruct (stored_weather_reading _ _); reflexivity)
    | (intros ?; unfold create_task;
       match goal with |- context [if ?c then _ else _] => destruct c end;
       reflexivity)
    | match goal with |- keeps _ (if ?c then _ else _) => destruct c end ].

Lemma io_bind_Raise_inv {A B} (m : io A) (k : A -> io B) (w w' : World) (e : exn) :
  io_bind m k w = (Raise e, w') ->
  m w = (Raise e, w') \/ exists a w1, m w = (Ok a, w1) /\ k a w1 = (Raise e, w').
Proof.
  unfold io_bind. destruct (m w) as [[a|e0] w1]; intros H.
  - right. eauto.
  - left. inversion H. reflexivity.
Qed.

(** X8: [on_mqtt_message] never raises into the MQTT client, whatever the
    topic and the payload, parsed or not, stored or refused, and in whatever
    thread it runs. *)
Theorem on_mqtt_message_never_raises
    (running_loop : bool) (db : Session) (msg : MQTTMessage) (w : World) :
  fst (on_mqtt_message running_loop db msg w) = Ok tt.
Proof.
  unfold on_mqtt_message, try_except.
  match goal with |- context [match ?b w with _ => _ end] => destruct (b w) as [[[]|e] w1] end;
    reflexivity.
Qed.

(** X9: a message whose payload does not parse is dropped: the only effect is
    one error line on standard output; nothing is stored and no update is
    queued. *)
Theorem on_mqtt_message_drops_unparseable
    (running_loop : bool) (db : Session) (msg : MQTTMessage) (w : World) :
  payload_json msg = None ->
  on_mqtt_message running_loop db msg w =
    (Ok tt,
     mkWorld (clock w) (ml_model w) (published w) (solenoid_states w)
       (weather_readings w) (irrigation_events w) (farm_zones w)
       (connected_clients w) (ws_closed w) (delivered w) (tasks w)
       (stdout w ++ [[Lit "❌ Erro MQTT: "; Exc JSONDecodeError]])).
Proof.
  intros H. unfold on_mqtt_message, try_except, io_bind, lift.
  rewrite H. reflexivity.
Qed.

Lemma on_mqtt_message_drops_unparseable_witness :
  stdout (snd (on_mqtt_message false strict_session unparseable_message empty_world)) =
    [[Lit "❌ Erro MQTT: "; Exc JSONDecodeError]] /\
  tasks (snd (on_mqtt_message false strict_session unparseable_message empty_world)) = [].
Proof.
  rewrite (on_mqtt_message_drops_unparseable
             false strict_session unparseable_message empty_world eq_refl).
  split; reflexivity.
Defined.

(** X10: no inbound message, alerts included, ever actuates anything: after
    [on_mqtt_message] the outbox, the irrigation events, the observer list
    and the delivered frames are what they were. *)
Theorem on_mqtt_message_never_actuates
    (running_loop : bool) (db : Session) (msg : MQTTMessage) (w : World) :
  published (snd (on_mqtt_message running_loop db msg w)) = published w /\
  irrigation_events (snd (on_mqtt_message running_loop db msg w)) = irrigation_events w /\
  connected_clients (snd (on_mqtt_message running_loop db msg w)) = connected_clients w /\
  delivered (snd (on_mqtt_message running_loop db msg w)) = delivered w.
Proof.
  repeat split.
  - revert w. change (keeps published (on_mqtt_message running_loop db msg)).
    unfold on_mqtt_message, route_by_topic, save_valve_status, save_weather_data,
      handle_alert. keeps_tac.
  - revert w. change (keeps irrigation_events (on_mqtt_message running_loop db msg)).
    unfold on_mqtt_message, route_by_topic, save_valve_status, save_weather_data,
      handle_alert. keeps_tac.
  - revert w. change (keeps connected_clients (on_mqtt_message running_loop db msg)).
    unfold on_mqtt_message, route_by_topic, save_valve_status, save_weather_data,
      handle_alert. keeps_tac.
  - revert w. change (keeps delivered (on_mqtt_message running_loop db msg)).
    unfold on_mqtt_message, route_by_topic, save_valve_status, save_weather_data,
      handle_alert. keeps_tac.
Qed.

(** X11: classification is by substring with "status" tried first: a topic
    that contains "status" anywhere, the device id included, is handled as a
    valve report, so a weather payload published on it is never stored as a
    reading. *)
Theorem status_substring_shadows_weather
    (running_loop : bool) (db : Session) (msg : MQTTMessage) (w : World) :
  str_contains "status" (topic msg) = true ->
  weather_readings (snd (on_mqtt_message running_loop db msg w)) = weather_readings w.
Proof.
  intros H. revert w.
  change (keeps weather_readings (on_mqtt_message running_loop db msg)).
  unfold on_mqtt_message, route_by_topic. rewrite H.
  unfold save_valve_status. keeps_tac.
Qed.

Lemma status_substring_shadows_weather_witness :
  str_contains "weather" (topic weather_from_status_device) = true /\
  weather_readings
    (snd (on_mqtt_message true strict_session weather_from_status_device empty_world)) = [].
Proof.
  split; [reflexivity|].
  apply (status_substring_shadows_weather
           true strict_session weather_from_status_device empty_world).
  reflexivity.
Defined.

(** The rows of a batch are built without touching the world. *)
Lemma status_rows_built (d : gmap string pyval) (entries : list pyval) (w : World) :
  forallb entry_ok entries = true ->
  io_mapM
    (fun valve_data =>
       number <- lift (py_getitem valve_data "number") ;;
       st <- lift (py_getitem valve_data "state") ;;
       now <- utcnow ;;
       device_id <- lift (py_get (PyDict d) "device_id" (PyStr "unknown")) ;;
       io_ret (SolenoidState.mk number (py_eq_str st "ON") now device_id))
    entries w =
  (Ok (map (status_row (default (PyStr "unknown") (d !! "device_id")) (clock w)) entries),
   w).
Proof.
  induction entries as [|x entries IH]; intros Hok; [reflexivity|].
  simpl in Hok. apply andb_prop in Hok as [Hx Hok].
  cbn [io_mapM map]. unfold io_bind at 1. unfold io_bind at 1.
  unfold entry_ok in Hx. unfold status_row at 1.
  destruct (py_getitem x "number") as [n|]; [|discriminate Hx].
  destruct (py_getitem x "state") as [s|]; [|discriminate Hx].
  unfold lift at 1. unfold io_bind at 1. unfold lift at 1.
  unfold io_bind at 1. unfold utcnow at 1. unfold io_bind at 1.
  unfold lift at 1, py_get at 1. unfold io_ret at 1.
  unfold io_bind at 1. rewrite (IH Hok). reflexivity.
Qed.

Lemma save_valve_status_runs
    (db : Session) (d : gmap string pyval) (entries : list pyval) (w : World) :
  py_get (PyDict d) "valves" (PyList []) = Ok (PyList entries) ->
  forallb entry_ok entries = true ->
  save_valve_status db (PyDict d) w =
    commit_solenoid_states db
      (map (status_row (default (PyStr "unknown") (d !! "device_id")) (clock w))
           entries) w.
Proof.
  intros Hv Hok. unfold save_valve_status.
  rewrite Hv. unfold io_bind at 1. unfold lift at 1.
  unfold io_bind at 1. unfold lift at 1. cbn [py_iter].
  unfold io_bind at 1. rewrite (status_rows_built d entries w Hok).
  reflexivity.
Qed.

Lemma entry_storable_ok (valve_data : pyval) :
  entry_storable valve_data = true -> entry_ok valve_data = true.
Proof.
  unfold entry_storable, entry_ok.
  destruct (py_getitem valve_data "number") as [[]|];
    destruct (py_getitem valve_data "state"); intros H;
    try discriminate H; reflexivity.
Qed.

(** The rows of storable entries are stored as built, the device id apart. *)
Lemma storable_rows_stored
    (db : Session) (device_id : pyval) (now : Z) (entries : list pyval) :
  forallb entry_storable entries = true ->
  result_mapM (stored_solenoid_state db) (map (status_row device_id now) entries) =
    Ok (map (status_row (device_id_column device_id) now) entries).
Proof.
  induction entries as [|x entries IH]; intros Hok; [reflexivity|].
  simpl in Hok. apply andb_prop in Hok as [Hx Hok].
  cbn [map result_mapM]. rewrite (IH Hok).
  unfold entry_storable in Hx. unfold stored_solenoid_state, status_row.
  destruct (py_getitem x "number") as [[]|]; try discriminate Hx.
  destruct (py_getitem x "state"); [|discriminate Hx].
  reflexivity.
Qed.

Lemma save_valve_status_storable
    (db : Session) (d : gmap string pyval) (entries : list pyval) (w : World) :
  py_get (PyDict d) "valves" (PyList []) = Ok (PyList entries) ->
  forallb entry_storable entries = true ->
  save_valve_status db (PyDict d) w =
    (Ok tt,
     mkWorld (clock w) (ml_model w) (published w)
       (solenoid_states w ++
        map (status_row
               (device_id_column (default (PyStr "unknown") (d !! "device_id")))
               (clock w))
            entries)
       (weather_readings w) (irrigation_events w) (farm_zones w)
       (connected_clients w) (ws_closed w) (delivered w) (tasks w) (stdout w)).
Proof.
  intros Hv Hok.
  rewrite (save_valve_status_runs db d entries w Hv).
  - unfold commit_solenoid_states.
    rewrite (storable_rows_stored db _ _ entries Hok). reflexivity.
  - apply forallb_forall. intros x Hx. apply entry_storable_ok.
    rewrite forallb_forall in Hok. apply (Hok x Hx).
Qed.

(** X12: a status message may batch several valves: when every entry of
    "valves" (a missing key counting as an empty batch) has a 32-bit int
    "number" and a "state", and the device id is one the column takes,
    [save_valve_status] commits one row per entry, in order, open exactly
    when the state is the string "ON", stamped with the current time and the
    payload's device id ("unknown" when absent, the column default when
    null). *)
Theorem save_valve_status_batch
    (db : Session) (d : gmap string pyval) (entries : list pyval) (w : World) :
  py_get (PyDict d) "valves" (PyList []) = Ok (PyList entries) ->
  forallb entry_storable entries = true ->
  device_storable (d !! "device_id") = true ->
  save_valve_status db (PyDict d) w =
    (Ok tt,
     mkWorld (clock w) (ml_model w) (published w)
       (solenoid_states w ++
        map (status_row
               (device_id_column (default (PyStr "unknown") (d !! "device_id")))
               (clock w))
            entries)
       (weather_readings w) (irrigation_events w) (farm_zones w)
       (connected_clients w) (ws_closed w) (delivered w) (tasks w) (stdout w)).
Proof.
  intros Hv Hok _. apply (save_valve_status_storable db d entries w Hv Hok).
Qed.

Lemma save_valve_status_batch_witness :
  solenoid_states
    (snd (save_valve_status strict_session (PyDict status_fields) empty_world)) =
    [SolenoidState.mk (PyInt 3) true 1000 (PyStr "d1")].
Proof.
  rewrite (save_valve_status_batch strict_session status_fields [valve3_on] empty_world);
    reflexivity.
Defined.

(** X13: [save_valve_status] is all or nothing: when it raises (a payload
    that is not an object, a "valves" that cannot be iterated, an entry
    without "number" or "state", a commit that is refused) no row of the
    batch is stored and the world is exactly what it was. *)
Theorem save_valve_status_all_or_nothing
    (db : Session) (data : pyval) (w w' : World) (e : exn) :
  save_valve_status db data w = (Raise e, w') -> w' = w.
Proof.
  unfold save_valve_status. intros H.
  apply io_bind_Raise_inv in H as [H | (valves & w1 & H1 & H)];
    [inversion H; reflexivity|].
  inversion H1; subst w1. clear H1.
  apply io_bind_Raise_inv in H as [H | (items & w1 & H1 & H)];
    [inversion H; reflexivity|].
  inversion H1; subst w1. clear H1.
  apply io_bind_Raise_inv in H as [H | (rows & w1 & H1 & H)].
  - match type of H with ?m w = _ =>
      assert (keeps (fun x => x) m) as Hk by keeps_tac end.
    specialize (Hk w). rewrite H in Hk. simpl in Hk. exact Hk.
  - match type of H1 with ?m w = _ =>
      assert (keeps (fun x => x) m) as Hk by keeps_tac end.
    specialize (Hk w). rewrite H1 in Hk. simpl in Hk. subst w1.
    revert H. unfold commit_solenoid_states.
    destruct (result_mapM _ _); intros H; inversion H; reflexivity.
Qed.

Lemma save_valve_status_all_or_nothing_witness :
  snd (save_valve_status strict_session half_good_batch empty_world) = empty_world.
Proof.
  apply (save_valve_status_all_or_nothing strict_session half_good_batch empty_world _
           (KeyError "number")).
  vm_compute. reflexivity.
Defined.

Lemma null_number_row_refused
    (db : Session) (device_id : pyval) (now : Z) (entries : list pyval) :
  Exists (fun valve_data => py_getitem valve_data "number" = Ok PyNone) entries ->
  exists e,
    result_mapM (stored_solenoid_state db) (map (status_row device_id now) entries) =
      Raise e.
Proof.
  induction 1 as [x entries Hx | x entries _ IH]; cbn [map result_mapM].
  - unfold stored_solenoid_state at 1, status_row at 1.
    cbn [SolenoidState.valve_number]. rewrite Hx.
    cbn [integer_not_null_column result_bind]. eauto.
  - destruct (stored_solenoid_state db (status_row device_id now x)) as [row|e];
      cbn [result_bind]; [|eauto].
    destruct IH as [e He]. rewrite He. cbn [result_bind]. eauto.
Qed.

(** X26: [valve_number] is declared [nullable=False]: a status batch in which
    every entry has both keys but some entry's "number" is null is refused
    as a whole: [save_valve_status] raises at the commit and stores no row,
    not even those of the entries that were complete. *)
Theorem null_valve_number_refuses_batch
    (db : Session) (d : gmap string pyval) (entries : list pyval) (w : World) :
  py_get (PyDict d) "valves" (PyList []) = Ok (PyList entries) ->
  forallb entry_ok entries = true ->
  Exists (fun valve_data => py_getitem valve_data "number" = Ok PyNone) entries ->
  exists e, save_valve_status db (PyDict d) w = (Raise e, w).
Proof.
  intros Hv Hok Hnull.
  rewrite (save_valve_status_runs db d entries w Hv Hok).
  unfold commit_solenoid_states.
  destruct (null_number_row_refused db
              (default (PyStr "unknown") (d !! "device_id")) (clock w) entries Hnull)
    as [e He].
  rewrite He. eauto.
Qed.

Lemma null_valve_number_refuses_batch_witness :
  exists e,
    save_valve_status strict_session (PyDict null_number_fields) empty_world =
      (Raise e, empty_world).
Proof.
  apply (null_valve_number_refuses_batch strict_session null_number_fields
           [valve3_on; PyDict {[ "number" := PyNone; "state" := PyStr "OFF" ]}]
           empty_world);
    [reflexivity | reflexivity |].
  apply Exists_cons_tl. apply Exists_cons_hd. reflexivity.
Defined.

(** ** Manual commands *)

(** X14: [control_valve] accepts exactly the valve numbers 1 to 10. *)
Theorem control_valve_accepts_iff_in_range
    (valve_number : Z) (command : ValveCommand.t) (w : World) :
  (exists response, fst (control_valve valve_number command w) = Ok response) <->
  1 <= valve_number <= 10.
Proof.
  unfold control_valve.
  destruct ((valve_number <? 1) || (10 <? valve_number)) eqn:E.
  - apply orb_true_iff in E. split.
    + intros [response H]. discriminate H.
    + intros [Hlo Hhi]. destruct E as [E | E]; apply Z.ltb_lt in E; lia.
  - apply orb_false_iff in E as [E1 E2].
    apply Z.ltb_ge in E1. apply Z.ltb_ge in E2. split.
    + intros _. lia.
    + intros _. eexists. reflexivity.
Qed.

(** X15: an accepted manual command publishes exactly one message on the
    command topic and stores exactly one event, and both mirror the request:
    switching on sends "valve_on" with the requested duration and logs "ON"
    with it; switching off sends "valve_off" with duration 0 and logs "OFF"
    with no duration, whatever duration the request carried. *)
Theorem control_valve_mirrors_request
    (valve_number : Z) (command : ValveCommand.t) (w : World) :
  1 <= valve_number <= 10 ->
  exists payload,
    snd (control_valve valve_number command w) =
      mkWorld (clock w) (ml_model w)
        (published w ++ [(command_topic, PyDict payload)])
        (solenoid_states w) (weather_readings w)
        (irrigation_events w ++
         [IrrigationEvent.mk (Some valve_number) 1
            (if ValveCommand.state command then "ON" else "OFF")
            (if ValveCommand.state command
             then ValveCommand.duration_minutes command else None)
            "manual" None (clock w)])
        (farm_zones w) (connected_clients w) (ws_closed w) (delivered w)
        (tasks w) (stdout w) /\
    payload !! "valve" = Some (PyInt valve_number) /\
    payload !! "action" =
      Some (PyStr (if ValveCommand.state command then "valve_on" else "valve_off")) /\
    payload !! "duration" =
      Some (if ValveCommand.state command
            then py_opt_int (ValveCommand.duration_minutes command)
            else PyInt 0) /\
    payload !! "source" = Some (PyStr "web_api").
Proof.
  intros [Hlo Hhi]. unfold control_valve.
  replace ((valve_number <? 1) || (10 <? valve_number)) with false
    by (symmetry; apply orb_false_iff; split; apply Z.ltb_ge; lia).
  eexists. split; [reflexivity|].
  repeat split; reflexivity.
Qed.

Lemma control_valve_mirrors_request_witness :
  exists payload,
    published (snd (control_valve 3 (ValveCommand.mk false (Some 15)) empty_world)) =
      [(command_topic, PyDict payload)] /\
    payload !! "duration" = Some (PyInt 0).
Proof.
  destruct (control_valve_mirrors_request 3 (ValveCommand.mk false (Some 15))
              empty_world ltac:(lia))
    as (payload & Hw & _ & _ & Hd & _).
  exists payload. rewrite Hw. split; [reflexivity | exact Hd].
Defined.

(** ** Read endpoints *)

Lemma latest_fold_max {A} (timestamp : A -> Z) (l : list A) (acc : option A) (b : A) :
  fold_left (latest_step timestamp) l acc = Some b ->
  (forall a, acc = Some a -> timestamp a <= timestamp b) /\
  Forall (fun r => timestamp r <= timestamp b) l.
Proof.
  revert acc. induction l as [|x l IH]; intros acc H; simpl in H.
  - split; [|constructor]. intros a Ha. rewrite Ha in H. inversion H. lia.
  - apply IH in H as [Hacc Hl]. split.
    + intros a ->. simpl in Hacc.
      destruct (timestamp a <? timestamp x) eqn:E.
      * apply Z.ltb_lt in E. specialize (Hacc x eq_refl). lia.
      * apply (Hacc a eq_refl).
    + constructor; [|exact Hl].
      destruct acc as [a|]; simpl in Hacc.
      * destruct (timestamp a <? timestamp x) eqn:E.
        -- apply (Hacc x eq_refl).
        -- apply Z.ltb_ge in E. specialize (Hacc a eq_refl). lia.
      * apply (Hacc x eq_refl).
Qed.

(** The row found carries the largest timestamp of the table. *)
Lemma latest_max {A} (timestamp : A -> Z) (l : list A) (b : A) :
  latest timestamp l = Some b ->
  Forall (fun r => timestamp r <= timestamp b) l.
Proof. intros H. apply (latest_fold_max timestamp l None b H). Qed.

(** X16: [get_current_weather] never changes the world; it answers 404
    exactly when no reading is stored, and otherwise with the columns of a
    stored reading whose timestamp no other stored reading exceeds. *)
Theorem get_current_weather_answers_latest (w : World) :
  snd (get_current_weather w) = w /\
  (fst (get_current_weather w) = Raise (HTTPException 404 "Sem dados meteorológicos")
   <-> weather_readings w = []) /\
  (forall response,
     fst (get_current_weather w) = Ok response ->
     exists weather,
       weather ∈ weather_readings w /\
       response = weather_response weather /\
       Forall (fun r => WeatherReading.timestamp r <= WeatherReading.timestamp weather)
              (weather_readings w)).
Proof.
  unfold get_current_weather, latest_weather.
  destruct (latest WeatherReading.timestamp (weather_readings w)) as [weather|] eqn:E.
  - split; [reflexivity|]. split.
    + split; [discriminate|].
      intros Hnil. rewrite Hnil in E. discriminate E.
    + intros response H. inversion H; subst. exists weather.
      split; [apply (latest_elem _ _ _ E)|].
      split; [reflexivity|]. apply (latest_max _ _ _ E).
  - split; [reflexivity|]. split.
    + split; [|reflexivity]. intros _. apply (latest_None WeatherReading.timestamp), E.
    + intros response H. discriminate H.
Qed.

(** X17: a weather payload whose fields are numbers or missing (and whose
    device id the column takes), stored while every older reading has an
    earlier timestamp, is what [get_current_weather] returns next: each
    field is the payload's number for its key, an int as the equal float, a
    missing key as null, and the timestamp is the time of storage. *)
Theorem weather_round_trip (db : Session) (d : gmap string pyval) (w : World) :
  weather_storable d = true ->
  device_storable (d !! "device_id") = true ->
  Forall (fun r => WeatherReading.timestamp r < clock w) (weather_readings w) ->
  fst (get_current_weather (snd (save_weather_data db (PyDict d) w))) =
    Ok (PyDict {[ "temperature" := stored_float (default PyNone (d !! "temperature"));
                  "humidity" := stored_float (default PyNone (d !! "humidity"));
                  "pressure" := stored_float (default PyNone (d !! "pressure"));
                  "wind_speed" := stored_float (default PyNone (d !! "wind_speed"));
                  "rain_1h" := stored_float (default PyNone (d !! "rain_1h"));
                  "solar_radiation" :=
                    stored_float (default PyNone (d !! "solar_radiation"));
                  "timestamp" := PyIsoTime (clock w) ]}).
Proof.
  intros Hd _ Hold. rewrite (save_weather_data_storable db d w Hd).
  unfold get_current_weather, latest_weather.
  cbn [snd weather_readings].
  rewrite latest_snoc_newer by exact Hold. reflexivity.
Qed.

Lemma weather_round_trip_witness :
  fst (get_current_weather
         (snd (save_weather_data strict_session (PyDict int_humidity_fields)
                 empty_world))) =
    Ok (PyDict {[ "temperature" := PyNone;
                  "humidity" := PyFloat 150;
                  "pressure" := PyNone;
                  "wind_speed" := PyNone;
                  "rain_1h" := PyFloat (-3);
                  "solar_radiation" := PyNone;
                  "timestamp" := PyIsoTime 1000 ]}).
Proof.
  rewrite (weather_round_trip strict_session int_humidity_fields empty_world);
    [reflexivity | reflexivity | reflexivity | constructor].
Defined.

Lemma valve_report_unseen (i : Z) (w : World) :
  Forall (fun row => valve_is i row = false) (solenoid_states w) ->
  valve_report i w =
    PyDict {[ "valve" := PyInt i; "state" := PyBool false; "last_change" := PyNone ]}.
Proof.
  intros H. unfold valve_report.
  replace (filter (fun row => valve_is i row = true) (solenoid_states w)) with
    (@nil SolenoidState.t); [reflexivity|].
  symmetry. induction H as [|row l Hrow Hl IH]; [reflexivity|].
  rewrite filter_cons_False by (rewrite Hrow; discriminate). exact IH.
Qed.

(** X18: [get_valves_status] never changes the world and always lists exactly
    ten entries, for valves 1 to 10 in that order; a valve for which no
    state was ever stored is reported off with no last change. *)
Theorem get_valves_status_lists_ten_valves (w : World) :
  exists entries,
    get_valves_status w = (Ok (PyDict {[ "valves" := PyList entries ]}), w) /\
    length entries = 10%nat /\
    (forall k : nat,
       (k < 10)%nat -> entries !! k = Some (valve_report (1 + Z.of_nat k) w)) /\
    (forall i,
       Forall (fun row => valve_is i row = false) (solenoid_states w) ->
       valve_report i w =
         PyDict {[ "valve" := PyInt i; "state" := PyBool false;
                   "last_change" := PyNone ]}).
Proof.
  eexists. split; [reflexivity|]. split; [reflexivity|]. split.
  - intros k Hk.
    do 10 (destruct k as [|k]; [reflexivity|]). lia.
  - intros i. apply valve_report_unseen.
Qed.



(** ** Weather poll timer *)

(** X20: every round of [weather_scheduler] sleeps two hours and publishes
    exactly one "read_weather_now" command stamped with the time it fires:
    after [rounds] rounds the outbox has grown by the commands stamped
    [clock + 7200], [clock + 2 * 7200], ... in that order, the clock has
    advanced by [7200 * rounds] and nothing else has changed. *)
Theorem weather_scheduler_rounds (rounds : nat) (w : World) :
  weather_scheduler rounds w =
    (Ok tt,
     mkWorld (clock w + 7200 * Z.of_nat rounds) (ml_model w)
       (published w ++
        map (fun k : nat =>
               (command_topic,
                PyDict {[ "action" := PyStr "read_weather_now";
                          "timestamp" := PyIsoTime (clock w + 7200 * Z.of_nat k) ]}))
            (seq 1 rounds))
       (solenoid_states w) (weather_readings w) (irrigation_events w)
       (farm_zones w) (connected_clients w) (ws_closed w) (delivered w)
       (tasks w) (stdout w)).
Proof.
  unfold weather_scheduler. revert w.
  induction rounds as [|n IH]; intros w.
  - destruct w. simpl. unfold io_ret. simpl.
    rewrite app_nil_r. do 2 f_equal. lia.
  - cbn [io_repeat]. unfold io_bind at 1. unfold io_bind at 1.
    cbn [sleep]. unfold io_bind at 1. cbn [utcnow publish].
    rewrite IH.
    cbn [clock ml_model published solenoid_states weather_readings
         irrigation_events farm_zones connected_clients ws_closed delivered
         tasks stdout].
    rewrite <- app_assoc. cbn [seq map app].
    rewrite <- (seq_shift n 1), map_map.
    replace (clock w + 7200 + 7200 * Z.of_nat n)
      with (clock w + 7200 * Z.of_nat (S n)) by lia.
    replace (clock w + 7200 * Z.of_nat 1) with (clock w + 7200) by lia.
    do 4 f_equal. apply map_ext. intros k.
    replace (clock w + 7200 + 7200 * Z.of_nat k)
      with (clock w + 7200 * Z.of_nat (S k)) by lia.
    reflexivity.
Qed.

(** ** Observer registration *)

Lemma list_remove_snoc_fresh (x : nat) (l : list nat) :
  x ∉ l -> list_remove x (l ++ [x]) = l.
Proof.
  induction l as [|y l IH]; intros Hx.
  - simpl. rewrite bool_decide_eq_true_2; reflexivity.
  - apply not_elem_of_cons in Hx as [Hne Hx].
    simpl. rewrite bool_decide_eq_false_2 by congruence.
    rewrite IH by exact Hx. reflexivity.
Qed.

(** X21: registering a new observer and then handling its disconnect gives
    back the world as it was before. *)
Theorem websocket_accept_then_disconnect (websocket : nat) (w : World) :
  websocket ∉ connected_clients w ->
  websocket_disconnect websocket (snd (websocket_accept websocket w)) = Some w.
Proof.
  intros Hnew. unfold websocket_disconnect, websocket_accept.
  cbn [set_connected_clients snd connected_clients].
  rewrite bool_decide_eq_true_2
    by (apply elem_of_app; right; apply list_elem_of_singleton; reflexivity).
  rewrite list_remove_snoc_fresh by exact Hnew.
  destruct w. reflexivity.
Qed.

Lemma websocket_accept_then_disconnect_witness :
  websocket_disconnect 4 (snd (websocket_accept 4 three_observers)) =
    Some three_observers.
Proof.
  apply (websocket_accept_then_disconnect 4 three_observers).
  vm_compute. intros H.
  repeat (apply elem_of_cons in H as [H | H]; [discriminate H|]).
  apply elem_of_nil in H. exact H.
Defined.

(** X22: once a broadcast has dropped an observer whose socket is closed,
    that observer's own disconnect handler finds it gone:
    [connected_clients.remove] raises. *)
Theorem disconnect_after_broadcast_dropped_it
    (websocket : nat) (message : pyval) (w : World) :
  websocket ∈ ws_closed w ->
  websocket_disconnect websocket (snd (notify_clients message w)) = None.
Proof.
  intros Hclosed. unfold websocket_disconnect.
  rewrite notify_clients_world.
  cbn [snd connected_clients].
  rewrite bool_decide_eq_false_2; [reflexivity|].
  intros [Hlive _]%list_elem_of_filter. exact (Hlive Hclosed).
Qed.

Lemma disconnect_after_broadcast_dropped_it_witness :
  websocket_disconnect 2 (snd (notify_clients (PyStr "a") three_observers)) = None.
Proof.
  apply (disconnect_after_broadcast_dropped_it 2 (PyStr "a") three_observers).
  vm_compute. reflexivity.
Defined.

(** X23: an observer registered on a live socket receives the next
    broadcast and stays registered. *)
Theorem accepted_observer_receives_broadcast
    (websocket : nat) (message : pyval) (w : World) :
  websocket ∉ ws_closed w ->
  let w' := snd (notify_clients message (snd (websocket_accept websocket w))) in
  (websocket, message) ∈ delivered w' /\ websocket ∈ connected_clients w'.
Proof.
  intros Hlive w'. subst w'. rewrite notify_clients_world.
  unfold websocket_accept.
  cbn [set_connected_clients snd connected_clients ws_closed delivered].
  rewrite filter_app, (filter_cons_True _ websocket) by exact Hlive.
  rewrite filter_nil. split.
  - apply elem_of_app. right. rewrite map_app. apply elem_of_app. right.
    apply list_elem_of_singleton. reflexivity.
  - apply elem_of_app. right. apply list_elem_of_singleton. reflexivity.
Qed.

Lemma accepted_observer_receives_broadcast_witness :
  (4%nat, PyStr "a") ∈
    delivered (snd (notify_clients (PyStr "a") (snd (websocket_accept 4 three_observers)))).
Proof.
  apply (accepted_observer_receives_broadcast 4 (PyStr "a") three_observers).
  vm_compute. intros H. discriminate H.
Defined.

(** ** Ingestion end to end *)

(** X24: a well-formed status message, end to end: when every entry has a
    32-bit int "number" and a "state" and the device id is one the column
    takes, the rows are appended to the valve states and one line is
    printed; then, in a thread with a running event loop, exactly one
    [mqtt_update] carrying the topic and the payload is queued for the
    observers, and in a thread without one the rows stay stored, a
    [RuntimeError] line is printed and nothing is queued. *)
Theorem status_message_end_to_end
    (running_loop : bool) (db : Session) (msg : MQTTMessage)
    (d : gmap string pyval) (entries : list pyval) (w : World) :
  str_contains "status" (topic msg) = true ->
  payload_json msg = Some (PyDict d) ->
  py_get (PyDict d) "valves" (PyList []) = Ok (PyList entries) ->
  forallb entry_storable entries = true ->
  device_storable (d !! "device_id") = true ->
  snd (on_mqtt_message running_loop db msg w) =
    mkWorld (clock w) (ml_model w) (published w)
      (solenoid_states w ++
       map (status_row
              (device_id_column (default (PyStr "unknown") (d !! "device_id")))
              (clock w))
           entries)
      (weather_readings w) (irrigation_events w) (farm_zones w)
      (connected_clients w) (ws_closed w) (delivered w)
      (if running_loop then tasks w ++ [mqtt_update (topic msg) (PyDict d)]
       else tasks w)
      (stdout w ++
       [Lit "📨 MQTT: "; Val (PyStr (topic msg))] ::
       (if running_loop then [] else [[Lit "❌ Erro MQTT: "; Exc RuntimeError]])).
Proof.
  intros Ht Hp Hv Hok _.
  rewrite (on_mqtt_message_after_step running_loop db msg (PyDict d) w Hp).
  unfold route_by_topic. rewrite Ht.
  rewrite (save_valve_status_storable db d entries _ Hv Hok).
  destruct running_loop; cbn; [reflexivity|].
  rewrite <- app_assoc. reflexivity.
Qed.

Lemma status_message_end_to_end_witness :
  solenoid_states
    (snd (on_mqtt_message false strict_session status_message empty_world)) =
    [SolenoidState.mk (PyInt 3) true 1000 (PyStr "d1")] /\
  tasks (snd (on_mqtt_message false strict_session status_message empty_world)) = [] /\
  tasks (snd (on_mqtt_message true strict_session status_message empty_world)) =
    [mqtt_update "agroirriga/d1/status" (PyDict status_fields)].
Proof.
  rewrite (status_message_end_to_end
             false strict_session status_message status_fields [valve3_on] empty_world);
    [|reflexivity ..].
  rewrite (status_message_end_to_end
             true strict_session status_message status_fields [valve3_on] empty_world);
    [|reflexivity ..].
  repeat split.
Defined.

(** X25: an alert is advisory only: for a topic that contains "alerts" (and
    neither "status" nor "weather") and an object payload, the handler
    prints the alert with its type and valve and stores and publishes
    nothing; the update for the observers is queued in a thread with a
    running event loop, and in a thread without one a [RuntimeError] line is
    printed instead. *)
Theorem alert_is_advisory_only
    (running_loop : bool) (db : Session) (msg : MQTTMessage)
    (d : gmap string pyval) (w : World) :
  str_contains "status" (topic msg) = false ->
  str_contains "weather" (topic msg) = false ->
  str_contains "alerts" (topic msg) = true ->
  payload_json msg = Some (PyDict d) ->
  snd (on_mqtt_message running_loop db msg w) =
    mkWorld (clock w) (ml_model w) (published w) (solenoid_states w)
      (weather_readings w) (irrigation_events w) (farm_zones w)
      (connected_clients w) (ws_closed w) (delivered w)
      (if running_loop then tasks w ++ [mqtt_update (topic msg) (PyDict d)]
       else tasks w)
      (stdout w ++
       [Lit "📨 MQTT: "; Val (PyStr (topic msg))] ::
       [Lit "🚨 ALERTA: "; Val (default PyNone (d !! "alert_type"));
        Lit " - Válvula "; Val (default PyNone (d !! "valve"))] ::
       (if running_loop then [] else [[Lit "❌ Erro MQTT: "; Exc RuntimeError]])).
Proof.
  intros H1 H2 H3 Hp.
  rewrite (on_mqtt_message_after_step running_loop db msg (PyDict d) w Hp).
  unfold route_by_topic. rewrite H1, H2, H3.
  unfold handle_alert, io_bind, lift, py_get, print, create_task, default.
  destruct running_loop; cbn; rewrite <- !app_assoc; reflexivity.
Qed.

Lemma alert_is_advisory_only_witness :
  published (snd (on_mqtt_message false strict_session alert_message empty_world)) = [] /\
  stdout (snd (on_mqtt_message false strict_session alert_message empty_world)) =
    [[Lit "📨 MQTT: "; Val (PyStr "agroirriga/d1/alerts")];
     [Lit "🚨 ALERTA: "; Val (PyStr "overcurrent"); Lit " - Válvula "; Val (PyInt 4)];
     [Lit "❌ Erro MQTT: "; Exc RuntimeError]].
Proof.
  rewrite (alert_is_advisory_only false strict_session alert_message alert_fields
             empty_world);
    [split; reflexivity | reflexivity ..].
Defined.
